(** * English Multi-language Translator App: the audio lifecycle of [eng.py]

    A shallow embedding of [src/eng.py]: the module-level helper
    [ensure_pygame], the class [TTSPlayer] (generate, play, pause, resume,
    stop, replay, _stop_and_cleanup_playback, cleanup) and the dictionary
    lookup [EnglishLearningApp._fetch_meaning_thread].

    Python methods mutate [self], the module globals and the outside world
    (temporary files, the pygame mixer, stdout).  They are embedded as
    computations in a state-and-exception monad over an explicit [World];
    a raised exception keeps the state reached so far, as in Python. *)

From stdpp Require Import base option strings gmap fin_maps.
From Stdlib Require Import String Ascii List Bool Lia.
Import ListNotations.
Local Open Scope string_scope.

(** ** Data model *)

(** The instance attributes set by [TTSPlayer.__init__] (the lock is left
    out: the embedding is sequential). *)
Record TTSPlayer := mkTTSPlayer {
  audio_file : option string;   (* final playable file, None until generated *)
  _raw_mp3 : option string;     (* raw mp3 path, if created *)
  is_playing : bool;
  paused : bool
}.

(** What a file on storage holds: [mkstemp] leaves an empty file, gTTS
    writes MP3 data, pydub and pyttsx3 write WAV data. *)
Inductive Content := Empty | Mp3 | Wav.

(** The music stream of [pygame.mixer.music]. *)
Inductive MusicStatus := Silent | Sounding | Suspended.

Record Music := mkMusic {
  loaded : option string;       (* file the device holds open *)
  status : MusicStatus
}.

(** [pygame.mixer]: not initialised, or initialised with its music stream. *)
Inductive Mixer := MixerOff | MixerOn (m : Music).

(** Calls that reached an initialised mixer, most recent first. *)
Inductive Call :=
| c_init | c_quit | c_stop | c_load (p : string) | c_play | c_pause | c_unpause.

(** The module globals bound by the guarded imports at the top of the file,
    and the platform.  [pygame] itself lives in the [World]: the global is
    [None] exactly when [PYGAME_AVAILABLE] is [False] (lines 39-44). *)
Record Config := mkConfig {
  pyttsx3 : bool;           (* pyttsx3 is not None *)
  gTTS : bool;              (* gTTS is not None *)
  AudioSegment : bool;      (* AudioSegment is not None *)
  exclusive_locks : bool    (* an open file cannot be removed (Windows) *)
}.

Record World := mkWorld {
  self : TTSPlayer;
  pygame : option Mixer;          (* None: the import failed *)
  audio_device : bool;            (* pygame.mixer.init() can open a device *)
  fs : gmap string Content;       (* temporary storage *)
  stdout : list string;           (* printed lines, most recent first *)
  calls : list Call
}.

Definition set_self (p : TTSPlayer) (w : World) : World :=
  mkWorld p (pygame w) (audio_device w) (fs w) (stdout w) (calls w).
Definition set_pygame (g : option Mixer) (w : World) : World :=
  mkWorld (self w) g (audio_device w) (fs w) (stdout w) (calls w).
Definition set_audio_device (b : bool) (w : World) : World :=
  mkWorld (self w) (pygame w) b (fs w) (stdout w) (calls w).
Definition set_fs (f : gmap string Content) (w : World) : World :=
  mkWorld (self w) (pygame w) (audio_device w) f (stdout w) (calls w).
Definition add_stdout (line : string) (w : World) : World :=
  mkWorld (self w) (pygame w) (audio_device w) (fs w) (line :: stdout w) (calls w).
Definition add_call (c : Call) (w : World) : World :=
  mkWorld (self w) (pygame w) (audio_device w) (fs w) (stdout w) (c :: calls w).

(** ** Exceptions and the monad *)

Inductive exn :=
| RuntimeError (msg : string)    (* raised by eng.py itself *)
| LibraryError (msg : string).   (* raised by pygame, gTTS, pydub, the OS, ... *)

(** [str(e)] *)
Definition str (e : exn) : string :=
  match e with RuntimeError m => m | LibraryError m => m end.

Inductive result (A : Type) :=
| Ok (a : A)
| Raise (e : exn).
Arguments Ok {A} a.
Arguments Raise {A} e.

(** Computations over a state [S] that return an [A] or raise. *)
Definition M (S A : Type) : Type := S -> result A * S.

Definition ret {S A} (a : A) : M S A := fun w => (Ok a, w).

Definition raise {S A} (e : exn) : M S A := fun w => (Raise e, w).

Definition bind {S A B} (m : M S A) (k : A -> M S B) : M S B :=
  fun w => match m w with
           | (Ok a, w') => k a w'
           | (Raise e, w') => (Raise e, w')
           end.

(** [try: m  except Exception as e: h e] *)
Definition try_except {S A} (m : M S A) (h : exn -> M S A) : M S A :=
  fun w => match m w with
           | (Ok a, w') => (Ok a, w')
           | (Raise e, w') => h e w'
           end.

Notation "'let*' x ':=' m 'in' k" := (bind m (fun x => k))
  (at level 10, x name, m at level 100, k at level 200).
Notation "m '>>' k" := (bind m (fun _ => k))
  (at level 90, right associativity).

Definition pass {S} : M S unit := ret tt.

Definition get {S A} (f : S -> A) : M S A := fun w => (Ok (f w), w).
Definition modify {S} (f : S -> S) : M S unit := fun w => (Ok tt, f w).

(** [print(...)] *)
Definition print (line : string) : M World unit := modify (add_stdout line).

(** [for x in l: body x] *)
Fixpoint for_each {S A} (l : list A) (body : A -> M S unit) : M S unit :=
  match l with
  | [] => pass
  | x :: l' => body x >> for_each l' body
  end.

(** ** The external collaborators *)

(** *** pygame.mixer *)

Definition mixer_not_initialized : exn := LibraryError "mixer not initialized".

(** Any use of the [pygame] global while it is [None]. *)
Definition no_pygame : exn :=
  LibraryError "'NoneType' object has no attribute 'mixer'".

Definition PYGAME_AVAILABLE : M World bool :=
  get (fun w => match pygame w with Some _ => true | None => false end).

(** [pygame.mixer.get_init()] *)
Definition mixer_get_init : M World bool := fun w =>
  match pygame w with
  | None => (Raise no_pygame, w)
  | Some MixerOff => (Ok false, w)
  | Some (MixerOn _) => (Ok true, w)
  end.

(** [pygame.mixer.init()] *)
Definition mixer_init : M World unit := fun w =>
  match pygame w with
  | None => (Raise no_pygame, w)
  | Some (MixerOn _) => (Ok tt, w)
  | Some MixerOff =>
      if audio_device w
      then (Ok tt, add_call c_init (set_pygame (Some (MixerOn (mkMusic None Silent))) w))
      else (Raise (LibraryError "No available audio device"), w)
  end.

(** [pygame.mixer.quit()]: closes the device and whatever it held open. *)
Definition mixer_quit : M World unit := fun w =>
  match pygame w with
  | None => (Raise no_pygame, w)
  | Some MixerOff => (Ok tt, w)
  | Some (MixerOn _) => (Ok tt, add_call c_quit (set_pygame (Some MixerOff) w))
  end.

(** A [pygame.mixer.music] function on an initialised mixer. *)
Definition on_music {A} (c : Call) (f : Music -> result A * Music) : M World A := fun w =>
  match pygame w with
  | None => (Raise no_pygame, w)
  | Some MixerOff => (Raise mixer_not_initialized, w)
  | Some (MixerOn m) =>
      let (r, m') := f m in (r, add_call c (set_pygame (Some (MixerOn m')) w))
  end.

(** [pygame.mixer.music.stop()] *)
Definition music_stop : M World unit :=
  on_music c_stop (fun m => (Ok tt, mkMusic (loaded m) Silent)).

(** [pygame.mixer.music.play()] *)
Definition music_play : M World unit :=
  on_music c_play (fun m =>
    match loaded m with
    | Some _ => (Ok tt, mkMusic (loaded m) Sounding)
    | None => (Raise (LibraryError "music not loaded"), m)
    end).

(** [pygame.mixer.music.pause()] *)
Definition music_pause : M World unit :=
  on_music c_pause (fun m =>
    (Ok tt, match status m with
            | Sounding => mkMusic (loaded m) Suspended
            | _ => m
            end)).

(** [pygame.mixer.music.unpause()] *)
Definition music_unpause : M World unit :=
  on_music c_unpause (fun m =>
    (Ok tt, match status m with
            | Suspended => mkMusic (loaded m) Sounding
            | _ => m
            end)).

(** [pygame.mixer.music.get_busy()]: true while the stream is sounding,
    false when it is paused or idle. *)
Definition music_get_busy : M World bool := fun w =>
  match pygame w with
  | None => (Raise no_pygame, w)
  | Some MixerOff => (Raise mixer_not_initialized, w)
  | Some (MixerOn m) =>
      (Ok match status m with Sounding => true | _ => false end, w)
  end.

(** [pygame.mixer.music.load(path)]: the file must exist and hold audio
    (MP3 or WAV); the new stream is loaded and silent. *)
Definition music_load (path : option string) : M World unit := fun w =>
  match pygame w with
  | None => (Raise no_pygame, w)
  | Some MixerOff => (Raise mixer_not_initialized, w)
  | Some (MixerOn m) =>
      match path with
      | None => (Raise (LibraryError "load() argument must be a path, not None"), w)
      | Some p =>
          match fs w !! p with
          | Some Mp3 | Some Wav =>
              (Ok tt, add_call (c_load p) (set_pygame (Some (MixerOn (mkMusic (Some p) Silent))) w))
          | Some Empty => (Raise (LibraryError "Unrecognized audio format"), w)
          | None => (Raise (LibraryError ("No file '" +:+ p +:+ "' found")), w)
          end
      end
  end.

(** *** os and tempfile *)

(** [os.path.exists(p)] *)
Definition os_path_exists (p : string) : M World bool :=
  get (fun w => bool_decide (is_Some (fs w !! p))).

(** The device keeps its loaded file open. *)
Definition held_open (w : World) (p : string) : bool :=
  match pygame w with
  | Some (MixerOn m) => bool_decide (loaded m = Some p)
  | _ => false
  end.

(** [os.remove(p)]: fails on a missing file, and on a file held open where
    the platform locks open files. *)
Definition os_remove (cfg : Config) (p : string) : M World unit := fun w =>
  match fs w !! p with
  | None => (Raise (LibraryError "No such file or directory"), w)
  | Some _ =>
      if exclusive_locks cfg && held_open w p
      then (Raise (LibraryError "The process cannot access the file"), w)
      else (Ok tt, set_fs (delete p (fs w)) w)
  end.

(** The name of a temporary file: prefix, random part, suffix. *)
Definition temp_name (prefix rnd suffix : string) : string :=
  prefix +:+ rnd +:+ suffix.
Arguments temp_name : simpl never.

(** [fd, path = tempfile.mkstemp(prefix=..., suffix=...); os.close(fd)].
    [rnd] is the random middle part of the name the library settles on
    ([None]: the OS refuses to create a file).  The file is created
    exclusively, so a name already taken is never returned. *)
Definition mkstemp (prefix suffix : string) (rnd : option string) : M World string := fun w =>
  match rnd with
  | None => (Raise (LibraryError "No usable temporary directory found"), w)
  | Some r =>
      let path := temp_name prefix r suffix in
      match fs w !! path with
      | Some _ => (Raise (LibraryError "No usable temporary file name found"), w)
      | None => (Ok path, set_fs (<[path := Empty]> (fs w)) w)
      end
  end.

(** *** The speech and conversion backends *)

(** What an external call does on one run. *)
Inductive outcome := Succeeds | Fails (msg : string).

(** The outside world's choices during one call of [generate]. *)
Record Oracle := mkOracle {
  tmp_offline : option string;   (* name given by mkstemp(suffix='.wav') *)
  offline_tts : outcome;         (* pyttsx3.init / save_to_file / runAndWait *)
  tmp_mp3 : option string;       (* name given by mkstemp(prefix='tts_', suffix='.mp3') *)
  network_tts : outcome;         (* gTTS(text, lang) and tts.save *)
  tmp_wav : option string;       (* name given by mkstemp(prefix='tts_', suffix='.wav') *)
  decode : outcome;              (* AudioSegment.from_file *)
  export : outcome               (* audio.export *)
}.

(** A backend that writes [c] to [path] when it succeeds. *)
Definition backend_write (o : outcome) (path : string) (c : Content) : M World unit :=
  match o with
  | Succeeds => modify (fun w => set_fs (<[path := c]> (fs w)) w)
  | Fails msg => raise (LibraryError msg)
  end.

(** [AudioSegment.from_file(path, format='mp3')] *)
Definition AudioSegment_from_file (o : outcome) (path : string) : M World unit := fun w =>
  match fs w !! path with
  | None => (Raise (LibraryError "No such file or directory"), w)
  | Some _ =>
      match o with
      | Succeeds => (Ok tt, w)
      | Fails msg => (Raise (LibraryError msg), w)
      end
  end.

(** ** Helper: ensure pygame mixer *)

Definition ensure_pygame : M World unit :=
  let* available := PYGAME_AVAILABLE in
  if negb available
  then raise (RuntimeError
         "pygame is required for audio playback. Install pygame in this environment.")
  else
    try_except
      (let* init := mixer_get_init in
       if negb init then mixer_init else pass)
      (fun e => raise (RuntimeError ("Failed to initialize audio device: " +:+ str e))).

(** ** TTS Player *)

(** [TTSPlayer.__init__] *)
Definition TTSPlayer_init : TTSPlayer := mkTTSPlayer None None false false.

Definition set_audio_file (v : option string) : M World unit :=
  modify (fun w => set_self (mkTTSPlayer v (_raw_mp3 (self w))
                               (is_playing (self w)) (paused (self w))) w).
Definition set_raw_mp3 (v : option string) : M World unit :=
  modify (fun w => set_self (mkTTSPlayer (audio_file (self w)) v
                               (is_playing (self w)) (paused (self w))) w).
Definition set_is_playing (b : bool) : M World unit :=
  modify (fun w => set_self (mkTTSPlayer (audio_file (self w)) (_raw_mp3 (self w))
                               b (paused (self w))) w).
Definition set_paused (b : bool) : M World unit :=
  modify (fun w => set_self (mkTTSPlayer (audio_file (self w)) (_raw_mp3 (self w))
                               (is_playing (self w)) b) w).

(** Python truth value of an attribute that is [None] or a [str]. *)
Definition truthy (v : option string) : bool :=
  match v with
  | Some s => negb (String.eqb s "")
  | None => false
  end.

(** A path argument that may be [None] at run time. *)
Definition with_path {A} (v : option string) (f : string -> M World A) : M World A :=
  match v with
  | Some p => f p
  | None => raise (LibraryError "expected str, bytes or os.PathLike object, not NoneType")
  end.

(** [TTSPlayer._stop_and_cleanup_playback]: stop playback and quit the
    mixer to release file locks; nothing escapes. *)
Definition _stop_and_cleanup_playback : M World unit :=
  try_except
    (let* available := PYGAME_AVAILABLE in
     let* init := if available then mixer_get_init else ret false in
     if init
     then try_except (music_stop >> mixer_quit) (fun _ => pass)
     else pass)
    (fun _ => pass).

(** The list [paths] built by [cleanup]: the tracked temporary files. *)
Definition tracked_paths (p : TTSPlayer) : list string :=
  (if truthy (audio_file p) then option_list (audio_file p) else []) ++
  (if truthy (_raw_mp3 p) then option_list (_raw_mp3 p) else []).

(** [TTSPlayer.cleanup]: remove the temporary files and reset the state. *)
Definition cleanup (cfg : Config) : M World unit :=
  let* paths := get (fun w => tracked_paths (self w)) in
  for_each paths (fun p =>
    try_except
      (let* there := if negb (String.eqb p "") then os_path_exists p else ret false in
       if there then os_remove cfg p else pass)
      (fun _ => pass)) >>
  set_audio_file None >>
  set_raw_mp3 None >>
  set_is_playing false >>
  set_paused false.

(** Lines 85-96 of [generate]: the offline pyttsx3 route, tried for
    English only and only when gTTS is missing.  [Some path]: the method
    returned [path]; [None]: control falls through. *)
Definition offline_route (cfg : Config) (text lang : string) (o : Oracle)
  : M World (option string) :=
  if String.prefix "en" lang && pyttsx3 cfg && negb (gTTS cfg)
  then
    try_except
      (let* path := mkstemp "tmp" ".wav" (tmp_offline o) in
       backend_write (offline_tts o) path Wav >>
       set_audio_file (Some path) >>
       ret (Some path))
      (fun e => print ("pyttsx3 fail, falling back to gTTS: " +:+ str e) >> ret None)
  else ret None.

(** The handler of lines 108-115: remove the mp3 if it was created, then
    raise.  [mp3_path] is [Some] when the name is bound in [locals()]. *)
Definition synthesis_failed {A} (cfg : Config) (mp3_path : option string) (e : exn) : M World A :=
  try_except
    (match mp3_path with
     | Some p => let* there := os_path_exists p in
                 if there then os_remove cfg p else pass
     | None => pass
     end)
    (fun _ => pass) >>
  raise (RuntimeError ("gTTS generation failed: " +:+ str e)).

(** Lines 101-115 of [generate]: create the unique mp3 file through gTTS. *)
Definition synthesize_mp3 (cfg : Config) (text lang : string) (o : Oracle) : M World unit :=
  let* mp3_path := try_except (mkstemp "tts_" ".mp3" (tmp_mp3 o))
                              (synthesis_failed cfg None) in
  try_except
    (backend_write (network_tts o) mp3_path Mp3 >>
     set_raw_mp3 (Some mp3_path))
    (synthesis_failed cfg (Some mp3_path)).

(** Lines 119-131 of [generate]: the body of the conversion [try] block. *)
Definition convert_to_wav (cfg : Config) (o : Oracle) : M World (option string) :=
  let* wav_path := mkstemp "tts_" ".wav" (tmp_wav o) in
  let* raw := get (fun w => _raw_mp3 (self w)) in
  with_path raw (AudioSegment_from_file (decode o)) >>
  backend_write (export o) wav_path Wav >>
  set_audio_file (Some wav_path) >>
  try_except (let* raw := get (fun w => _raw_mp3 (self w)) in
              with_path raw (os_remove cfg))
             (fun _ => pass) >>
  set_raw_mp3 None >>
  get (fun w => audio_file (self w)).

(** Lines 136-138 of [generate]: otherwise keep the mp3. *)
Definition keep_mp3 : M World (option string) :=
  let* raw := get (fun w => _raw_mp3 (self w)) in
  set_audio_file raw >>
  get (fun w => audio_file (self w)).

(** Lines 85-138 of [generate]: what runs after the previous files are
    cleaned up. *)
Definition produce_audio (cfg : Config) (text lang : string) (o : Oracle)
  : M World (option string) :=
  let* offline := offline_route cfg text lang o in
  match offline with
  | Some path => ret (Some path)
  | None =>
      if negb (gTTS cfg)
      then raise (RuntimeError "gTTS not available. Install gTTS (pip install gTTS).")
      else
        synthesize_mp3 cfg text lang o >>
        let* converted :=
          if AudioSegment cfg
          then try_except
                 (let* final := convert_to_wav cfg o in ret (Some final))
                 (fun e => print ("pydub conversion failed, will try mp3 playback: " +:+ str e) >>
                           ret None)
          else ret None in
        match converted with
        | Some final => ret final
        | None => keep_mp3
        end
  end.

(** [TTSPlayer.generate(text, lang)]: returns the path of the final file. *)
Definition generate (cfg : Config) (text lang : string) (o : Oracle) : M World (option string) :=
  _stop_and_cleanup_playback >>
  cleanup cfg >>
  produce_audio cfg text lang o.

(** Lines 145-156 and 189-198: stop whatever plays, load, play, set the
    flags. *)
Definition load_and_play : M World unit :=
  try_except music_stop (fun _ => pass) >>
  let* file := get (fun w => audio_file (self w)) in
  music_load file >>
  music_play >>
  set_is_playing true >>
  set_paused false.

(** [TTSPlayer.play] *)
Definition play : M World unit :=
  ensure_pygame >>
  let* file := get (fun w => audio_file (self w)) in
  let* there := match file with
                | Some p => if truthy file then os_path_exists p else ret false
                | None => ret false
                end in
  if negb there
  then raise (RuntimeError "No audio file to play. Generate it first.")
  else try_except load_and_play
         (fun e => raise (RuntimeError ("Playback failed: " +:+ str e))).

(** [TTSPlayer.pause] *)
Definition pause : M World unit :=
  try_except
    (ensure_pygame >>
     let* busy := music_get_busy in
     let* is_paused := get (fun w => paused (self w)) in
     if busy && negb is_paused
     then music_pause >> set_paused true >> set_is_playing false
     else pass)
    (fun e => print ("Pause error: " +:+ str e)).

(** [TTSPlayer.resume] *)
Definition resume : M World unit :=
  try_except
    (ensure_pygame >>
     let* is_paused := get (fun w => paused (self w)) in
     if is_paused
     then music_unpause >> set_paused false >> set_is_playing true
     else pass)
    (fun e => print ("Resume error: " +:+ str e)).

(** [TTSPlayer.stop] *)
Definition stop : M World unit :=
  try_except
    (ensure_pygame >>
     music_stop >>
     set_is_playing false >>
     set_paused false)
    (fun e => print ("Stop error: " +:+ str e)).

(** [TTSPlayer.replay] *)
Definition replay : M World unit :=
  try_except
    (ensure_pygame >> load_and_play)
    (fun e => print ("Replay error: " +:+ str e) >> raise e).

(** ** Histories of one player

    What can happen to a [TTSPlayer] and its surroundings: a call of one of
    its public methods, or a move of the outside world. *)
Inductive Action :=
| a_generate (text lang : string) (o : Oracle)
| a_play
| a_pause
| a_resume
| a_stop
| a_replay
| a_cleanup
| a_track_ends                  (* the stream plays to its end *)
| a_device (present : bool)     (* the audio device comes or goes *)
| a_file_lost (p : string).     (* a file is removed from outside *)

Definition track_ends (w : World) : World :=
  match pygame w with
  | Some (MixerOn m) =>
      match status m with
      | Sounding => set_pygame (Some (MixerOn (mkMusic (loaded m) Silent))) w
      | _ => w
      end
  | _ => w
  end.

(** The world after an action, whether the call returned or raised. *)
Definition perform (cfg : Config) (a : Action) (w : World) : World :=
  match a with
  | a_generate text lang o => snd (generate cfg text lang o w)
  | a_play => snd (play w)
  | a_pause => snd (pause w)
  | a_resume => snd (resume w)
  | a_stop => snd (stop w)
  | a_replay => snd (replay w)
  | a_cleanup => snd (cleanup cfg w)
  | a_track_ends => track_ends w
  | a_device present => set_audio_device present w
  | a_file_lost p => set_fs (delete p (fs w)) w
  end.

Definition run (cfg : Config) (history : list Action) (w : World) : World :=
  fold_left (fun w a => perform cfg a w) history w.

(** A world in which the player has just been constructed: the mixer, if
    pygame could be imported at all, has not been initialised yet. *)
Definition just_constructed (w : World) : bool :=
  match audio_file (self w), _raw_mp3 (self w) with
  | None, None => negb (is_playing (self w)) && negb (paused (self w))
  | _, _ => false
  end &&
  match pygame w with
  | Some (MixerOn _) => false
  | _ => true
  end.

(** The world in which [generate] starts to produce audio: after lines
    81-83. *)
Definition cleaned (cfg : Config) (w : World) : World :=
  snd (cleanup cfg (snd (_stop_and_cleanup_playback w))).

(** Which way one call of [generate] goes. *)
Inductive Route :=
| via_offline              (* pyttsx3 wrote the WAV, line 94 *)
| no_backend               (* line 99 *)
| synthesis_fails          (* line 115 *)
| via_wav                  (* conversion succeeded, line 131 *)
| via_mp3_unconverted      (* AudioSegment is None, line 138 *)
| via_mp3_conversion_failed. (* the except of line 132, then line 138 *)

Definition route (cfg : Config) (text lang : string) (o : Oracle) (w : World) : Route :=
  match offline_route cfg text lang o (cleaned cfg w) with
  | (Ok (Some _), _) => via_offline
  | (_, w1) =>
      if negb (gTTS cfg) then no_backend
      else
        match synthesize_mp3 cfg text lang o w1 with
        | (Raise _, _) => synthesis_fails
        | (Ok _, w2) =>
            if negb (AudioSegment cfg) then via_mp3_unconverted
            else
              match convert_to_wav cfg o w2 with
              | (Ok _, _) => via_wav
              | (Raise _, _) => via_mp3_conversion_failed
              end
        end
  end.

(** ** Word lookup ([EnglishLearningApp._fetch_meaning_thread]) *)

(** A parsed JSON document, as [resp.json()] returns it (numbers are kept
    as integers; a dict is the list of its items). *)
Unset Elimination Schemes.
Inductive JSON :=
| JNull
| JBool (b : bool)
| JNum (n : Z)
| JStr (s : string)
| JList (items : list JSON)
| JObj (members : list (string * JSON)).
Set Elimination Schemes.

(** What [requests.get(url, timeout=8)] comes back with. *)
Inductive HttpReply :=
| connection_fails (msg : string)
| responds (status_code : Z) (json : option JSON).   (* None: the body is not JSON *)

(** The services one lookup talks to. *)
Record Services := mkServices {
  http : HttpReply;
  (* GoogleTranslator(source='auto', target=code).translate(text) *)
  translate : string -> string -> result string
}.

(** The widgets and the console the lookup writes to. *)
Record App := mkApp {
  meaning_box : string;     (* the text shown in the meaning box *)
  lang_var : string;        (* the entry selected in the language menu *)
  console : list string     (* printed lines, most recent first *)
}.

(** [self.languages] *)
Definition languages : list (string * string) :=
  [ ("English (en)", "en"); ("Hindi (hi)", "hi"); ("Bengali (bn)", "bn");
    ("Tamil (ta)", "ta"); ("Telugu (te)", "te"); ("Kannada (kn)", "kn");
    ("Malayalam (ml)", "ml"); ("Marathi (mr)", "mr"); ("Gujarati (gu)", "gu");
    ("Punjabi (pa)", "pa"); ("Odia (or)", "or"); ("Urdu (ur)", "ur");
    ("Nepali (ne)", "ne"); ("Spanish (es)", "es"); ("French (fr)", "fr");
    ("German (de)", "de"); ("Portuguese (pt)", "pt"); ("Japanese (ja)", "ja");
    ("Korean (ko)", "ko"); ("Russian (ru)", "ru"); ("Italian (it)", "it") ].

(** [d.get(key, default)] on a dict given by its items. *)
Fixpoint dict_get {V} (d : list (string * V)) (key : string) (default : V) : V :=
  match d with
  | [] => default
  | (k, v) :: d' => if String.eqb k key then v else dict_get d' key default
  end.

Definition dq : string := String (ascii_of_nat 34) "".   (* the double quote *)
Definition nl : string := String (ascii_of_nat 10) "".   (* the line feed *)

(** [meaning_box.delete('1.0', 'end')] *)
Definition box_clear : M App unit :=
  modify (fun a => mkApp "" (lang_var a) (console a)).
(** [meaning_box.insert('1.0', text)] *)
Definition box_insert_first (text : string) : M App unit :=
  modify (fun a => mkApp (text +:+ meaning_box a) (lang_var a) (console a)).
(** [meaning_box.insert('end', text)] *)
Definition box_insert_end (text : string) : M App unit :=
  modify (fun a => mkApp (meaning_box a +:+ text) (lang_var a) (console a)).
Definition console_print (line : string) : M App unit :=
  modify (fun a => mkApp (meaning_box a) (lang_var a) (line :: console a)).

(** Truth value of a parsed value. *)
Definition py_truth (v : JSON) : bool :=
  match v with
  | JNull => false
  | JBool b => b
  | JNum n => negb (Z.eqb n 0)
  | JStr s => negb (String.eqb s "")
  | JList l => match l with [] => false | _ => true end
  | JObj d => match d with [] => false | _ => true end
  end.

(** [v.get(key, default)]: only a dict has [get]. *)
Definition py_get {S} (v : JSON) (key : string) (default : JSON) : M S JSON :=
  match v with
  | JObj d => ret (dict_get d key default)
  | _ => raise (LibraryError "object has no attribute 'get'")
  end.

(** [v[0]] *)
Definition py_first {S} (v : JSON) : M S JSON :=
  match v with
  | JList (x :: _) => ret x
  | JList [] => raise (LibraryError "list index out of range")
  | JStr (String c _) => ret (JStr (String c ""))
  | JStr EmptyString => raise (LibraryError "string index out of range")
  | JObj _ => raise (LibraryError "0")
  | _ => raise (LibraryError "object is not subscriptable")
  end.

Section WordLookup.

(** [str(v)] of a number, a list or a dict, as an f-string prints it. *)
Variable py_repr : JSON -> string.

(** [f'{v}'] *)
Definition fmt (v : JSON) : string :=
  match v with
  | JStr s => s
  | JNull => "None"
  | JBool true => "True"
  | JBool false => "False"
  | _ => py_repr v
  end.

Definition no_definition (word : string) : string :=
  "No definition found for " +:+ dq +:+ word +:+ dq +:+ "." +:+ nl.

(** Lines 508-534: the short text built from the parsed answer. *)
Definition summarize (word : string) (data : JSON) : M App string :=
  match data with
  | JList (entry :: _) =>
      let* word_title := py_get entry "word" (JStr word) in
      let short_text := "Word: " +:+ fmt word_title +:+ nl in
      let* phonetics := py_get entry "phonetics" (JList []) in
      let* short_text :=
        if py_truth phonetics
        then let* first := py_first phonetics in
             let* p := py_get first "text" JNull in
             ret (if py_truth p
                  then short_text +:+ "Pronunciation: " +:+ fmt p +:+ nl
                  else short_text)
        else ret short_text in
      let* meanings := py_get entry "meanings" (JList []) in
      if py_truth meanings
      then
        let* first_meaning := py_first meanings in
        let* part := py_get first_meaning "partOfSpeech" (JStr "") in
        let* defs := py_get first_meaning "definitions" (JList []) in
        if py_truth defs
        then
          let* d0 := py_first defs in
          let* definition := py_get d0 "definition" (JStr "") in
          let* example := py_get d0 "example" JNull in
          let short_text :=
            short_text +:+ "Part of speech: " +:+ fmt part +:+ nl
                       +:+ "Definition: " +:+ fmt definition +:+ nl in
          ret (if py_truth example
               then short_text +:+ "Example: " +:+ fmt example +:+ nl
               else short_text)
        else ret short_text
      else ret (short_text +:+ "No meanings found." +:+ nl)
  | _ => ret (no_definition word)
  end.

(** [requests.get(url, timeout=8)] *)
Definition requests_get (sv : Services) : M App (Z * option JSON) :=
  match http sv with
  | connection_fails msg => raise (LibraryError msg)
  | responds code body => ret (code, body)
  end.

(** [resp.json()] *)
Definition resp_json (body : option JSON) : M App JSON :=
  match body with
  | Some data => ret data
  | None => raise (LibraryError "Expecting value")
  end.

(** Lines 536-546: translate the short text when the global language is
    not English. *)
Definition localize (sv : Services) (short_text : string) : M App string :=
  let* target_key := get lang_var in
  let target_code := dict_get languages target_key "en" in
  if negb (String.eqb target_code "en")
  then
    try_except
      (let* translated := (fun a => (translate sv target_code short_text, a)) in
       ret ("--- Original (English) ---" +:+ nl +:+ short_text +:+ nl +:+ nl +:+
            "--- Translated ---" +:+ nl +:+ translated))
      (fun e => ret (short_text +:+ nl +:+ nl +:+ "(Translation failed: " +:+ str e +:+ ")"))
  else ret short_text.

(** [EnglishLearningApp._fetch_meaning_thread(word)] *)
Definition _fetch_meaning_thread (sv : Services) (word : string) : M App unit :=
  try_except
    (box_clear >>
     box_insert_first ("Searching meaning for " +:+ dq +:+ word +:+ dq +:+ "..." +:+ nl) >>
     let* resp := requests_get sv in
     if negb (Z.eqb (fst resp) 200)
     then box_insert_end (no_definition word)
     else
       let* data := resp_json (snd resp) in
       let* short_text := summarize word data in
       let* full_text := localize sv short_text in
       box_clear >>
       box_insert_first full_text)
    (fun e =>
       console_print ("Meaning lookup error: " +:+ str e) >>
       box_insert_end ("Error: " +:+ str e)).

End WordLookup.

(** ** Notions used in the statements *)

(** The mixer is not initialised (or pygame is missing altogether): the
    device plays nothing and holds no file. *)
Definition quiet (w : World) : bool :=
  match pygame w with Some (MixerOn _) => false | _ => true end.

(** The device is sounding: what [pygame.mixer.music.get_busy()] reports. *)
Definition busy (w : World) : bool :=
  match pygame w with
  | Some (MixerOn m) => match status m with Sounding => true | _ => false end
  | _ => false
  end.

(** The music stream, with the stream of an uninitialised mixer taken to
    be the empty, silent one. *)
Definition music_of (w : World) : Music :=
  match pygame w with
  | Some (MixerOn m) => m
  | _ => mkMusic None Silent
  end.

(** A call that was a no-op: the player, the storage and the music stream
    are as before. *)
Definition untouched (w w' : World) : Prop :=
  self w' = self w /\ fs w' = fs w /\ music_of w' = music_of w.

(** The files given to [pygame.mixer.music.load] so far. *)
Fixpoint loaded_files (cs : list Call) : list string :=
  match cs with
  | [] => []
  | c_load p :: cs' => p :: loaded_files cs'
  | _ :: cs' => loaded_files cs'
  end.

(** Storage after removing [paths]. *)
Definition forget (paths : list string) (f : gmap string Content) : gmap string Content :=
  fold_left (fun f p => delete p f) paths f.

(** The guard of line 86. *)
Definition offline_wanted (cfg : Config) (lang : string) : bool :=
  String.prefix "en" lang && pyttsx3 cfg && negb (gTTS cfg).

(** The player is never both Playing and Paused. *)
Definition flags_consistent (p : TTSPlayer) : Prop :=
  ~ (is_playing p = true /\ paused p = true).

(** What holds of every world a history leads to: the flags are
    consistent, and a flag is only set while the mixer is initialised. *)
Definition coherent (w : World) : bool :=
  negb (is_playing (self w) && paused (self w)) &&
  implb (is_playing (self w) || paused (self w)) (negb (quiet w)).

(** The flags keep step with the device: it only sounds while the player
    is Playing. *)
Definition in_step (w : World) : bool :=
  implb (busy w) (is_playing (self w)).

(** A direct call of [cleanup] (the app calls it on closing only). *)
Definition is_cleanup (a : Action) : bool :=
  match a with a_cleanup => true | _ => false end.

(** [m] never takes the state out of the relation [R]. *)
Definition keeps {S A} (R : S -> S -> Prop) (m : M S A) : Prop :=
  forall w, R w (snd (m w)).

(** What [generate] leaves alone once the old files are cleaned up: the
    two flags and the mixer. *)
Definition same_flags_and_mixer (w w' : World) : Prop :=
  is_playing (self w') = is_playing (self w) /\
  paused (self w') = paused (self w) /\
  pygame w' = pygame w.

(** What one call of [generate] returns and leaves behind, route by
    route; [w1] is the cleaned world it starts to produce audio in. *)
Definition generate_outcome (cfg : Config) (o : Oracle) (w1 : World) (rt : Route)
    (r : result (option string)) (w' : World) : Prop :=
  match rt with
  | via_offline =>
      gTTS cfg = false /\
      exists x, tmp_offline o = Some x /\
        let path := temp_name "tmp" x ".wav" in
        r = Ok (Some path) /\ fs w1 !! path = None /\
        self w' = mkTTSPlayer (Some path) None false false /\
        fs w' = <[path := Wav]> (fs w1)
  | no_backend =>
      gTTS cfg = false /\
      r = Raise (RuntimeError "gTTS not available. Install gTTS (pip install gTTS).") /\
      self w' = TTSPlayer_init /\
      (fs w' = fs w1 \/
       exists x, tmp_offline o = Some x /\
         fs w1 !! temp_name "tmp" x ".wav" = None /\
         fs w' = <[temp_name "tmp" x ".wav" := Empty]> (fs w1))
  | synthesis_fails =>
      gTTS cfg = true /\
      (exists msg, r = Raise (RuntimeError ("gTTS generation failed: " +:+ msg))) /\
      self w' = TTSPlayer_init /\
      fs w' = fs w1
  | via_wav =>
      gTTS cfg = true /\ AudioSegment cfg = true /\
      exists m x, tmp_mp3 o = Some m /\ tmp_wav o = Some x /\
        let mp3 := temp_name "tts_" m ".mp3" in
        let wav := temp_name "tts_" x ".wav" in
        r = Ok (Some wav) /\
        fs w1 !! mp3 = None /\ fs w1 !! wav = None /\ mp3 <> wav /\
        self w' = mkTTSPlayer (Some wav) None false false /\
        fs w' = delete mp3 (<[wav := Wav]> (<[mp3 := Mp3]> (fs w1)))
  | via_mp3_unconverted =>
      gTTS cfg = true /\ AudioSegment cfg = false /\
      exists m, tmp_mp3 o = Some m /\
        let mp3 := temp_name "tts_" m ".mp3" in
        r = Ok (Some mp3) /\ fs w1 !! mp3 = None /\
        self w' = mkTTSPlayer (Some mp3) (Some mp3) false false /\
        fs w' = <[mp3 := Mp3]> (fs w1)
  | via_mp3_conversion_failed =>
      gTTS cfg = true /\ AudioSegment cfg = true /\
      exists m, tmp_mp3 o = Some m /\
        let mp3 := temp_name "tts_" m ".mp3" in
        r = Ok (Some mp3) /\ fs w1 !! mp3 = None /\
        self w' = mkTTSPlayer (Some mp3) (Some mp3) false false /\
        (fs w' = <[mp3 := Mp3]> (fs w1) \/
         exists x, tmp_wav o = Some x /\
           <[mp3 := Mp3]> (fs w1) !! temp_name "tts_" x ".wav" = None /\
           fs w' = <[temp_name "tts_" x ".wav" := Empty]> (<[mp3 := Mp3]> (fs w1)))
  end.

(** The first line the lookup shows. *)
Definition searching (word : string) : string :=
  "Searching meaning for " +:+ dq +:+ word +:+ dq +:+ "..." +:+ nl.

(** ** Sample configurations, worlds and oracles *)

Definition all_installed : Config := mkConfig true true true true.
Definition no_converter : Config := mkConfig false true false true.   (* pydub missing *)
Definition offline_only : Config := mkConfig true false false true.   (* only pyttsx3 *)

(** pygame imported, mixer not initialised yet, a device present, an empty
    temporary directory. *)
Definition new_world : World :=
  mkWorld TTSPlayer_init (Some MixerOff) true ∅ [] [].

(** The same without pygame. *)
Definition no_pygame_world : World :=
  mkWorld TTSPlayer_init None false ∅ [] [].

Definition smooth : Oracle :=
  mkOracle (Some "a") Succeeds (Some "b") Succeeds (Some "c") Succeeds Succeeds.
Definition smooth_again : Oracle :=
  mkOracle (Some "d") Succeeds (Some "e") Succeeds (Some "f") Succeeds Succeeds.
Definition network_down : Oracle :=
  mkOracle (Some "d") Succeeds (Some "e") (Fails "network unreachable")
           (Some "f") Succeeds Succeeds.
Definition no_speech_driver : Oracle :=
  mkOracle (Some "a") (Fails "no speech driver") None Succeeds None Succeeds Succeeds.
Definition no_ffmpeg : Oracle :=
  mkOracle (Some "a") Succeeds (Some "b") Succeeds (Some "c") (Fails "ffmpeg not found") Succeeds.

(** A first asset has been generated, converted and is playing. *)
Definition playing_world : World :=
  run all_installed [a_generate "Hello" "en" smooth; a_play] new_world.

Definition lookup_404 : Services :=
  mkServices (responds 404 None) (fun _ _ => Raise (LibraryError "offline")).

(** * The rest of the window *)

(** [os.remove(p)] would go through: the device does not keep [p] locked. *)
Definition removable (cfg : Config) (w : World) (p : string) : bool :=
  negb (exclusive_locks cfg && held_open w p).

(** Everything installed, on a platform that lets open files be removed. *)
Definition all_installed_posix : Config := mkConfig true true true false.

(** ** The window around the player ([EnglishLearningApp]) *)

(** The [state] option of a button; the app only ever passes these two. *)
Inductive ButtonState := disabled | normal.

(** A message box that was shown. *)
Inductive Dialog :=
| showerror (title message : string)
| showinfo (title message : string).

(** The widgets the transport handlers touch, [self.player] with its
    surroundings, and the files the notes are kept in.  [status_lbl] is the
    label once the updates scheduled by [_set_status] have run: they are
    queued with [after(0, ...)] and run in order, and nothing else writes
    the label. *)
Record Window := mkWindow {
  world : World;
  play_btn : ButtonState;
  pause_btn : ButtonState;
  replay_btn : ButtonState;
  pause_btn_text : string;
  status_lbl : string;
  notes_area : string;
  target_language : string;            (* self.lang_var *)
  disk : gmap string string;           (* text files, by path *)
  dialogs : list Dialog;               (* most recent first *)
  destroyed : bool
}.

Definition set_world (w : World) (g : Window) : Window :=
  mkWindow w (play_btn g) (pause_btn g) (replay_btn g) (pause_btn_text g)
           (status_lbl g) (notes_area g) (target_language g) (disk g) (dialogs g)
           (destroyed g).

(** A call into the player or pygame from a handler. *)
Definition in_world {A} (m : M World A) : M Window A := fun g =>
  let (r, w') := m (world g) in (r, set_world w' g).

(** [messagebox.showerror(title, message)] and [showinfo] *)
Definition messagebox (d : Dialog) : M Window unit :=
  modify (fun g => mkWindow (world g) (play_btn g) (pause_btn g) (replay_btn g)
                     (pause_btn_text g) (status_lbl g) (notes_area g)
                     (target_language g) (disk g) (d :: dialogs g) (destroyed g)).

(** [self._set_status(text)] *)
Definition _set_status (text : string) : M Window unit :=
  modify (fun g => mkWindow (world g) (play_btn g) (pause_btn g) (replay_btn g)
                     (pause_btn_text g) text (notes_area g)
                     (target_language g) (disk g) (dialogs g) (destroyed g)).

(** [self.pause_btn.config(text=...)] *)
Definition pause_btn_config_text (text : string) : M Window unit :=
  modify (fun g => mkWindow (world g) (play_btn g) (pause_btn g) (replay_btn g)
                     text (status_lbl g) (notes_area g)
                     (target_language g) (disk g) (dialogs g) (destroyed g)).

(** [self._set_playback_buttons_state(state)]: the three buttons, each
    under its own [try]. *)
Definition _set_playback_buttons_state (state : ButtonState) : M Window unit :=
  modify (fun g => mkWindow (world g) state state state
                     (pause_btn_text g) (status_lbl g) (notes_area g)
                     (target_language g) (disk g) (dialogs g) (destroyed g)).

(** [self._enable_playback_buttons()] *)
Definition _enable_playback_buttons : M Window unit :=
  _set_playback_buttons_state normal >>
  pause_btn_config_text "Pause".

(** [self._start_playback_ui()] *)
Definition _start_playback_ui : M Window unit :=
  try_except
    (in_world play >>
     _enable_playback_buttons >>
     _set_status "Playing")
    (fun e =>
       messagebox (showerror "Playback Error" (str e)) >>
       _set_playback_buttons_state disabled).

(** [self.on_play()] *)
Definition on_play : M Window unit :=
  try_except
    (in_world ensure_pygame >>
     let* is_paused := get (fun g => paused (self (world g))) in
     if is_paused
     then in_world resume >> _set_status "Playing"
     else
       let* busy := in_world music_get_busy in
       if negb busy
       then in_world play >> _set_status "Playing"
       else pass)
    (fun e => messagebox (showerror "Play Error" (str e))).

(** [self.on_pause()] *)
Definition on_pause : M Window unit :=
  try_except
    (let* is_paused := get (fun g => paused (self (world g))) in
     if is_paused
     then in_world resume >>
          pause_btn_config_text "Pause" >>
          _set_status "Playing"
     else
       let* available := in_world PYGAME_AVAILABLE in
       let* busy := if available then in_world music_get_busy else ret false in
       if busy
       then in_world pause >>
            pause_btn_config_text "Resume" >>
            _set_status "Paused"
       else pass)
    (fun e => messagebox (showerror "Pause Error" (str e))).

(** [self.on_replay()] *)
Definition on_replay : M Window unit :=
  try_except
    (in_world replay >>
     _enable_playback_buttons >>
     pause_btn_config_text "Pause" >>
     _set_status "Playing")
    (fun e => messagebox (showerror "Replay Error" (str e))).

(** [self.destroy()] *)
Definition destroy : M Window unit :=
  modify (fun g => mkWindow (world g) (play_btn g) (pause_btn g) (replay_btn g)
                     (pause_btn_text g) (status_lbl g) (notes_area g)
                     (target_language g) (disk g) (dialogs g) true).

(** [self.on_close()]: clean up, then quit the mixer, then destroy. *)
Definition on_close (cfg : Config) : M Window unit :=
  try_except
    (in_world (cleanup cfg) >>
     let* available := in_world PYGAME_AVAILABLE in
     if available
     then try_except (in_world mixer_quit) (fun _ => pass)
     else pass)
    (fun _ => pass) >>
  destroy.

(** The label of a quick-sample button (line 326):
    [s if len(s) < 35 else s[:32] + '...'].  Lengths and slices are taken
    on ASCII text, where characters and bytes agree. *)
Definition sample_label (s : string) : string :=
  if Nat.ltb (String.length s) 35 then s else String.substring 0 32 s +:+ "...".

(** [self.sample_contexts] *)
Definition sample_contexts : list string :=
  [ "Introduce yourself and talk about your hobbies.";
    "Describe your favorite book and why you like it.";
    "Explain how to prepare your favorite vegetarian dish.";
    "Talk about a memorable trip you took.";
    "Describe a daily routine for a student preparing for exams." ].

(** *** Notes *)

Definition set_notes_area (text : string) : M Window unit :=
  modify (fun g => mkWindow (world g) (play_btn g) (pause_btn g) (replay_btn g)
                     (pause_btn_text g) (status_lbl g) text
                     (target_language g) (disk g) (dialogs g) (destroyed g)).

Definition LF : ascii := ascii_of_nat 10.
Definition CR : ascii := ascii_of_nat 13.

(** What a text file opened for writing does to the text ([newline=None]):
    every line feed becomes [os.linesep]. *)
Fixpoint write_newlines (linesep : string) (s : string) : string :=
  match s with
  | EmptyString => EmptyString
  | String c rest =>
      if Ascii.eqb c LF
      then linesep +:+ write_newlines linesep rest
      else String c (write_newlines linesep rest)
  end.

(** What a text file opened for reading does ([newline=None], universal
    newlines): a carriage return, with the line feed after it if there is
    one, is read as one line feed. *)
Fixpoint universal_newlines (s : string) : string :=
  match s with
  | EmptyString => EmptyString
  | String c rest =>
      if Ascii.eqb c CR
      then match rest with
           | String c' rest' =>
               if Ascii.eqb c' LF
               then String LF (universal_newlines rest')
               else String LF (universal_newlines rest)
           | EmptyString => String LF EmptyString
           end
      else String c (universal_newlines rest)
  end.

(** The text holds no carriage return. *)
Fixpoint no_cr (s : string) : bool :=
  match s with
  | EmptyString => true
  | String c rest => negb (Ascii.eqb c CR) && no_cr rest
  end.

(** How [with open(path, 'w', ...) as f: f.write(text)] can end. *)
Inductive WriteOutcome :=
| w_done
| w_open_fails (msg : string)                  (* [open] raises: nothing is touched *)
| w_write_fails (msg : string) (reached : string).
                                               (* [write] or the closing raises: the file
                                                  was emptied by [open] and holds what
                                                  reached it *)

Definition set_disk (d : gmap string string) : M Window unit :=
  modify (fun g => mkWindow (world g) (play_btn g) (pause_btn g) (replay_btn g)
                     (pause_btn_text g) (status_lbl g) (notes_area g)
                     (target_language g) d (dialogs g) (destroyed g)).

(** [with open(path, 'w', encoding='utf-8') as f: f.write(text)] *)
Definition file_write (linesep : string) (io : WriteOutcome) (path text : string)
  : M Window unit :=
  match io with
  | w_done =>
      let* d := get disk in
      set_disk (<[path := write_newlines linesep text]> d)
  | w_open_fails msg => raise (LibraryError msg)
  | w_write_fails msg reached =>
      let* d := get disk in
      set_disk (<[path := reached]> d) >>
      raise (LibraryError msg)
  end.

Section Notes.

(** [str.strip()] and [repr] of a [str] *)
Variable strip : string -> string.
Variable repr_str : string -> string.

(** [with open(path, 'r', encoding='utf-8') as f: data = f.read()]; [io]
    is a failure the system reports other than the file not being there. *)
Definition file_read (io : outcome) (path : string) : M Window string :=
  match io with
  | Fails msg => raise (LibraryError msg)
  | Succeeds =>
      let* d := get disk in
      match d !! path with
      | None =>
          raise (LibraryError ("[Errno 2] No such file or directory: " +:+ repr_str path))
      | Some data => ret (universal_newlines data)
      end
  end.

(** [self.notes_area.get('1.0', 'end').strip()]: Tk hands out the text
    followed by a newline. *)
Definition notes_text : M Window string :=
  get (fun g => strip (notes_area g +:+ nl)).

(** [self.save_notes()]; [chosen] is what the save dialog returns (empty
    when it is cancelled). *)
Definition save_notes (linesep chosen : string) (io : WriteOutcome) : M Window unit :=
  let* text := notes_text in
  if String.eqb text ""
  then messagebox (showinfo "No Notes" "There is nothing to save.")
  else if String.eqb chosen ""
  then pass
  else
    try_except
      (file_write linesep io chosen text >>
       messagebox (showinfo "Saved" ("Notes successfully saved to:" +:+ nl +:+ chosen)))
      (fun e => messagebox (showerror "Save Error" (str e))).

(** [self.load_notes()] *)
Definition load_notes (chosen : string) (io : outcome) : M Window unit :=
  if String.eqb chosen ""
  then pass
  else
    try_except
      (let* data := file_read io chosen in
       set_notes_area "" >>
       set_notes_area data >>
       messagebox (showinfo "Loaded" ("Notes loaded from:" +:+ nl +:+ chosen)))
      (fun e => messagebox (showerror "Load Error" (str e))).

(** [self.translate_notes()] *)
Definition translate_notes (sv : Services) : M Window unit :=
  let* text := notes_text in
  if String.eqb text ""
  then messagebox (showinfo "No Notes" "There is nothing to translate.")
  else
    let* target_key := get target_language in
    let target_code := dict_get languages target_key "en" in
    try_except
      (let* translated := (fun g => (translate sv target_code text, g)) in
       set_notes_area "" >>
       set_notes_area translated)
      (fun e => messagebox (showerror "Translation Error" (str e))).

End Notes.

(** [repr] of a string without quotes, backslashes or control characters. *)
Definition quoted (s : string) : string := "'" +:+ s +:+ "'".

(** A window around a player that is playing its first asset. *)
Definition playing_window : Window :=
  mkWindow playing_world normal normal normal "Pause" "Playing" "" "English (en)" ∅ [] false.

(** A window just opened. *)
Definition new_window : Window :=
  mkWindow new_world disabled disabled disabled "Pause" "" "" "English (en)" ∅ [] false.

(** The parsed answer holds no entry: it is not a non-empty list. *)
Definition has_no_entry (data : JSON) : bool :=
  match data with
  | JList (_ :: _) => false
  | _ => true
  end.

(** [str.strip()] on ASCII text, for the examples. *)
Definition is_space (c : ascii) : bool :=
  match nat_of_ascii c with
  | 9 | 10 | 11 | 12 | 13 | 32 => true
  | _ => false
  end.

Fixpoint lstrip (s : string) : string :=
  match s with
  | String c s' => if is_space c then lstrip s' else s
  | EmptyString => EmptyString
  end.

Definition ascii_strip (s : string) : string :=
  String.rev (lstrip (String.rev (lstrip s))).

(** A window with two lines of notes. *)
Definition notes_window : Window :=
  mkWindow new_world disabled disabled disabled "Pause" "" ("  to be" +:+ nl +:+ "or not ")
           "Spanish (es)" ∅ [] false.

(** A translator that tags the text with the target code. *)
Definition tagging : Services :=
  mkServices (responds 200 None) (fun code text => Ok (code +:+ ":" +:+ text)).

(** * Verification *)

(** ** Symbolic execution of the building blocks *)

Ltac monad_step :=
  unfold bind, try_except, ret, raise, pass, get, modify, print, os_path_exists,
         os_remove, set_audio_file, set_raw_mp3, set_is_playing, set_paused,
         with_path, held_open, backend_write, AudioSegment_from_file, mkstemp; cbn.

Ltac world_cases w :=
  destruct w as [[[?af|] ?raw [|] [|]] [[|[?ld [| |]]]|] [|] ?f ?out ?cs].

Ltac method_cases :=
  unfold play, pause, resume, stop, replay, load_and_play, ensure_pygame, PYGAME_AVAILABLE,
         mixer_get_init, mixer_init, music_stop, music_play, music_pause, music_unpause,
         music_get_busy, music_load, on_music, truthy;
  monad_step;
  repeat match goal with
         | |- context [String.eqb ?p ""] => destruct (String.eqb p "") eqn:?; cbn
         | |- context [?f !! ?p] => destruct (f !! p) as [[| |]|] eqn:?; cbn
         end.

Lemma ensure_pygame_eq w :
  ensure_pygame w =
  match pygame w with
  | None => (Raise (RuntimeError
       "pygame is required for audio playback. Install pygame in this environment."), w)
  | Some (MixerOn _) => (Ok tt, w)
  | Some MixerOff =>
      if audio_device w
      then (Ok tt, add_call c_init (set_pygame (Some (MixerOn (mkMusic None Silent))) w))
      else (Raise (RuntimeError
             "Failed to initialize audio device: No available audio device"), w)
  end.
Proof.
  destruct w as [p [[|m]|] [|] f out cs]; reflexivity.
Qed.

Lemma stop_and_cleanup_playback_eq w :
  _stop_and_cleanup_playback w =
  (Ok tt, match pygame w with
          | Some (MixerOn _) => add_call c_quit (add_call c_stop (set_pygame (Some MixerOff) w))
          | _ => w
          end).
Proof.
  destruct w as [p [[|m]|] dev f out cs]; reflexivity.
Qed.

Lemma remove_if_there cfg p w :
  quiet w = true -> String.eqb p "" = false ->
  try_except
    (let* there := if negb (String.eqb p "") then os_path_exists p else ret false in
     if there then os_remove cfg p else pass)
    (fun _ => pass) w
  = (Ok tt, set_fs (delete p (fs w)) w).
Proof.
  intros Hq Hp. rewrite Hp.
  destruct w as [s [[|m]|] dev f out cs]; try discriminate Hq; monad_step.
  all: destruct (f !! p) eqn:Hf; cbn; rewrite ?Hf, ?andb_false_r; cbn; try reflexivity.
  all: rewrite delete_id by assumption; reflexivity.
Qed.

Lemma cleanup_eq cfg w :
  quiet w = true ->
  cleanup cfg w =
  (Ok tt, mkWorld TTSPlayer_init (pygame w) (audio_device w)
            (forget (tracked_paths (self w)) (fs w)) (stdout w) (calls w)).
Proof.
  intros Hq. unfold cleanup.
  unfold bind at 1. unfold get at 1.
  assert (Hall : Forall (fun p => String.eqb p "" = false) (tracked_paths (self w))).
  { unfold tracked_paths, truthy.
    destruct (audio_file (self w)) as [a|], (_raw_mp3 (self w)) as [r|]; cbn;
      repeat match goal with |- context [String.eqb ?x ""] => destruct (String.eqb x "") eqn:? end;
      cbn; repeat constructor; assumption. }
  revert Hall. generalize (tracked_paths (self w)) as paths. intros paths.
  revert w Hq. induction paths as [|p paths IH]; intros w Hq Hall.
  - destruct w as [s g dev f out cs]. reflexivity.
  - inversion Hall as [|? ? Hp Hrest]; subst.
    cbn [for_each]. unfold bind at 1. unfold bind at 1.
    rewrite (remove_if_there cfg p w Hq Hp).
    specialize (IH (set_fs (delete p (fs w)) w)).
    unfold bind at 1 in IH. rewrite IH; [ | destruct w; exact Hq | exact Hrest].
    destruct w; reflexivity.
Qed.

Lemma cleanup_shape cfg w :
  exists f', cleanup cfg w =
    (Ok tt, mkWorld TTSPlayer_init (pygame w) (audio_device w) f' (stdout w) (calls w)).
Proof.
  unfold cleanup.
  unfold bind at 1. unfold get at 1.
  generalize (tracked_paths (self w)) as paths. intros paths.
  revert w. induction paths as [|p paths IH]; intros w.
  - destruct w as [s g dev f out cs]. eexists. reflexivity.
  - cbn [for_each]. unfold bind at 1. unfold bind at 1.
    set (body := try_except _ _).
    assert (Hb : exists f', body w = (Ok tt, set_fs f' w)).
    { subst body. destruct w as [s g dev f out cs]. monad_step.
      destruct (negb (String.eqb p "")); cbn; [|eexists; reflexivity].
      destruct (f !! p) eqn:Hf; cbn; rewrite ?Hf; cbn; [|eexists; reflexivity].
      destruct (exclusive_locks cfg && _); cbn; eexists; reflexivity. }
    destruct Hb as [f' ->].
    specialize (IH (set_fs f' w)). unfold bind at 1 in IH.
    destruct IH as [f'' IH]. exists f''.
    destruct w; exact IH.
Qed.

Lemma cleanup_self cfg w :
  self (snd (cleanup cfg w)) = TTSPlayer_init /\ pygame (snd (cleanup cfg w)) = pygame w.
Proof. destruct (cleanup_shape cfg w) as [f' ->]. split; reflexivity. Qed.

Lemma offline_route_skipped cfg text lang o w :
  offline_wanted cfg lang = false ->
  offline_route cfg text lang o w = (Ok None, w).
Proof.
  unfold offline_wanted, offline_route. intros ->. reflexivity.
Qed.

Lemma offline_route_eq cfg text lang o w :
  offline_wanted cfg lang = true ->
  offline_route cfg text lang o w =
  let lament msg := add_stdout ("pyttsx3 fail, falling back to gTTS: " +:+ msg) in
  match tmp_offline o with
  | None => (Ok None, lament "No usable temporary directory found" w)
  | Some r =>
      let path := temp_name "tmp" r ".wav" in
      match fs w !! path with
      | Some _ => (Ok None, lament "No usable temporary file name found" w)
      | None =>
          match offline_tts o with
          | Succeeds =>
              (Ok (Some path),
               mkWorld (mkTTSPlayer (Some path) (_raw_mp3 (self w))
                          (is_playing (self w)) (paused (self w)))
                       (pygame w) (audio_device w) (<[path := Wav]> (fs w))
                       (stdout w) (calls w))
          | Fails msg => (Ok None, lament msg (set_fs (<[path := Empty]> (fs w)) w))
          end
      end
  end.
Proof.
  unfold offline_wanted, offline_route. intros ->.
  destruct w as [s g dev f out cs], o as [[r|] off ? ? ? ? ?]; monad_step; try reflexivity.
  destruct (f !! _) eqn:Hf; cbn; try reflexivity.
  destruct off; cbn; try reflexivity.
  rewrite insert_insert_eq. reflexivity.
Qed.

Lemma synthesize_mp3_eq cfg text lang o w :
  quiet w = true ->
  synthesize_mp3 cfg text lang o w =
  let failed msg : result unit := Raise (RuntimeError ("gTTS generation failed: " +:+ msg)) in
  match tmp_mp3 o with
  | None => (failed "No usable temporary directory found", w)
  | Some r =>
      let path := temp_name "tts_" r ".mp3" in
      match fs w !! path with
      | Some _ => (failed "No usable temporary file name found", w)
      | None =>
          match network_tts o with
          | Succeeds =>
              (Ok tt,
               mkWorld (mkTTSPlayer (audio_file (self w)) (Some path)
                          (is_playing (self w)) (paused (self w)))
                       (pygame w) (audio_device w) (<[path := Mp3]> (fs w))
                       (stdout w) (calls w))
          | Fails msg => (failed msg, w)
          end
      end
  end.
Proof.
  intros Hq. unfold synthesize_mp3, synthesis_failed.
  destruct w as [s [[|m]|] dev f out cs], o as [? ? [r|] net ? ? ?];
    try discriminate Hq; monad_step; try reflexivity.
  all: destruct (f !! _) eqn:Hf; cbn; try reflexivity.
  all: destruct net; cbn; repeat (rewrite ?lookup_insert_eq, ?andb_false_r; cbn).
  all: rewrite ?insert_insert_eq, ?delete_insert_id by assumption; reflexivity.
Qed.

Lemma convert_to_wav_eq cfg o w mp3 c :
  quiet w = true ->
  _raw_mp3 (self w) = Some mp3 ->
  fs w !! mp3 = Some c ->
  convert_to_wav cfg o w =
  match tmp_wav o with
  | None => (Raise (LibraryError "No usable temporary directory found"), w)
  | Some r =>
      let wav := temp_name "tts_" r ".wav" in
      match fs w !! wav with
      | Some _ => (Raise (LibraryError "No usable temporary file name found"), w)
      | None =>
          match decode o, export o with
          | Fails msg, _ | Succeeds, Fails msg =>
              (Raise (LibraryError msg), set_fs (<[wav := Empty]> (fs w)) w)
          | Succeeds, Succeeds =>
              (Ok (Some wav),
               mkWorld (mkTTSPlayer (Some wav) None
                          (is_playing (self w)) (paused (self w)))
                       (pygame w) (audio_device w)
                       (delete mp3 (<[wav := Wav]> (fs w)))
                       (stdout w) (calls w))
          end
      end
  end.
Proof.
  intros Hq Hraw Hmp3. unfold convert_to_wav.
  destruct w as [[af raw ip pa] [[|m]|] dev f out cs], o as [? ? ? ? [r|] dec ex];
    try discriminate Hq; cbn in Hraw, Hmp3; subst raw; monad_step; try reflexivity.
  all: destruct (f !! temp_name _ _ _) eqn:Hf; cbn; try reflexivity.
  all: assert (Hne : temp_name "tts_" r ".wav" <> mp3) by congruence.
  all: rewrite !lookup_insert_ne, Hmp3 by assumption.
  all: destruct dec, ex; cbn; try reflexivity.
  all: repeat (rewrite ?lookup_insert_ne, ?Hmp3, ?andb_false_r by assumption; cbn).
  all: rewrite ?insert_insert_eq; reflexivity.
Qed.

Lemma cleaned_eq cfg w :
  cleaned cfg w =
  mkWorld TTSPlayer_init
    (match pygame w with Some _ => Some MixerOff | None => None end)
    (audio_device w)
    (forget (tracked_paths (self w)) (fs w))
    (stdout w)
    (match pygame w with
     | Some (MixerOn _) => c_quit :: c_stop :: calls w
     | _ => calls w
     end).
Proof.
  unfold cleaned. rewrite stop_and_cleanup_playback_eq. cbn [snd].
  rewrite cleanup_eq; destruct w as [s [[|m]|] dev f out cs]; reflexivity.
Qed.

Lemma generate_eq cfg text lang o w :
  generate cfg text lang o w = produce_audio cfg text lang o (cleaned cfg w).
Proof.
  unfold generate, cleaned. unfold bind at 1.
  rewrite stop_and_cleanup_playback_eq. unfold bind at 1. cbn [snd].
  rewrite cleanup_eq; [reflexivity | destruct w as [s [[|m]|] dev f out cs]; reflexivity].
Qed.

Lemma forget_lookup_None paths (f : gmap string Content) p :
  p ∈ paths -> forget paths f !! p = None.
Proof.
  revert f. induction paths as [|q paths IH]; intros f Hin; [inversion Hin |].
  cbn. destruct (decide (p ∈ paths)) as [Hp|Hp]; [auto |].
  assert (p = q) as -> by (inversion Hin; subst; tauto).
  clear. revert f. induction paths as [|x paths IH]; intros f; cbn.
  - apply lookup_delete_eq.
  - rewrite delete_delete. apply IH.
Qed.

Lemma forget_lookup_Some paths (f : gmap string Content) p c :
  forget paths f !! p = Some c -> f !! p = Some c.
Proof.
  revert f. induction paths as [|q paths IH]; intros f; cbn; [auto |].
  intros H. apply IH in H. apply lookup_delete_Some in H. tauto.
Qed.

Lemma quiet_cleaned cfg w : quiet (cleaned cfg w) = true.
Proof. rewrite cleaned_eq. destruct (pygame w); reflexivity. Qed.

Lemma offline_wanted_gTTS cfg lang : gTTS cfg = true -> offline_wanted cfg lang = false.
Proof. unfold offline_wanted. intros ->. apply andb_false_r. Qed.

Lemma offline_wanted_true cfg lang : offline_wanted cfg lang = true -> gTTS cfg = false.
Proof.
  unfold offline_wanted. destruct (gTTS cfg); [|reflexivity].
  rewrite andb_false_r. discriminate.
Qed.

Lemma append_empty_r (s : string) : s +:+ "" = s.
Proof.
  induction s as [|c s IH]; [reflexivity |].
  change (String c (s +:+ "") = String c s). f_equal. exact IH.
Qed.

(** ** What a computation leaves alone *)

Section Frame.
Context {S : Type} (R : S -> S -> Prop).
Hypothesis R_refl : forall s, R s s.
Hypothesis R_trans : forall a b c, R a b -> R b c -> R a c.

Lemma keeps_ret {A} (a : A) : keeps R (ret a).
Proof. intros w. apply R_refl. Qed.

Lemma keeps_raise {A} e : keeps R (@raise S A e).
Proof. intros w. apply R_refl. Qed.

Lemma keeps_get {A} (f : S -> A) : keeps R (get f).
Proof. intros w. apply R_refl. Qed.

Lemma keeps_bind {A B} (m : M S A) (k : A -> M S B) :
  keeps R m -> (forall a, keeps R (k a)) -> keeps R (bind m k).
Proof.
  intros Hm Hk w. unfold bind. specialize (Hm w).
  destruct (m w) as [[a|e] w1]; cbn in *; [|assumption].
  eapply R_trans; [eassumption | apply Hk].
Qed.

Lemma keeps_try_except {A} (m : M S A) (h : exn -> M S A) :
  keeps R m -> (forall e, keeps R (h e)) -> keeps R (try_except m h).
Proof.
  intros Hm Hh w. unfold try_except. specialize (Hm w).
  destruct (m w) as [[a|e] w1]; cbn in *; [assumption|].
  eapply R_trans; [eassumption | apply Hh].
Qed.
End Frame.

Lemma same_flags_and_mixer_refl w : same_flags_and_mixer w w.
Proof. repeat split. Qed.

Lemma same_flags_and_mixer_trans a b c :
  same_flags_and_mixer a b -> same_flags_and_mixer b c -> same_flags_and_mixer a c.
Proof. unfold same_flags_and_mixer. intuition congruence. Qed.

Ltac frame_prim :=
  let w := fresh "w" in
  intros w; destruct w as [[? ? ? ?] ? ? ? ? ?];
  repeat (cbn; unfold same_flags_and_mixer;
          match goal with
          | |- context [match ?x with _ => _ end] => destruct x eqn:?
          | |- context [if ?x then _ else _] => destruct x eqn:?
          end);
  cbn; unfold same_flags_and_mixer; cbn; auto.

Lemma frame_os_path_exists p : keeps same_flags_and_mixer (os_path_exists p).
Proof. apply keeps_get, same_flags_and_mixer_refl. Qed.
Lemma frame_os_remove cfg p : keeps same_flags_and_mixer (os_remove cfg p).
Proof. unfold os_remove. frame_prim. Qed.
Lemma frame_mkstemp a b r : keeps same_flags_and_mixer (mkstemp a b r).
Proof. unfold mkstemp. frame_prim. Qed.
Lemma frame_backend_write o p c : keeps same_flags_and_mixer (backend_write o p c).
Proof. unfold backend_write. destruct o; frame_prim. Qed.
Lemma frame_from_file o p : keeps same_flags_and_mixer (AudioSegment_from_file o p).
Proof. unfold AudioSegment_from_file. frame_prim. Qed.
Lemma frame_set_audio_file v : keeps same_flags_and_mixer (set_audio_file v).
Proof. frame_prim. Qed.
Lemma frame_set_raw_mp3 v : keeps same_flags_and_mixer (set_raw_mp3 v).
Proof. frame_prim. Qed.
Lemma frame_print s : keeps same_flags_and_mixer (print s).
Proof. frame_prim. Qed.
Lemma frame_ret {A} (a : A) : keeps same_flags_and_mixer (ret a).
Proof. apply keeps_ret, same_flags_and_mixer_refl. Qed.
Lemma frame_raise {A} e : keeps same_flags_and_mixer (@raise World A e).
Proof. apply keeps_raise, same_flags_and_mixer_refl. Qed.
Lemma frame_get {A} (f : World -> A) : keeps same_flags_and_mixer (get f).
Proof. apply keeps_get, same_flags_and_mixer_refl. Qed.
Lemma frame_bind {A B} (m : M World A) (k : A -> M World B) :
  keeps same_flags_and_mixer m -> (forall a, keeps same_flags_and_mixer (k a)) ->
  keeps same_flags_and_mixer (bind m k).
Proof. apply keeps_bind, same_flags_and_mixer_trans. Qed.
Lemma frame_try_except {A} (m : M World A) (h : exn -> M World A) :
  keeps same_flags_and_mixer m -> (forall e, keeps same_flags_and_mixer (h e)) ->
  keeps same_flags_and_mixer (try_except m h).
Proof. apply keeps_try_except, same_flags_and_mixer_trans. Qed.

Create HintDb frame.
#[local] Hint Resolve frame_os_path_exists frame_os_remove frame_mkstemp
  frame_backend_write frame_from_file frame_set_audio_file frame_set_raw_mp3
  frame_print frame_ret frame_raise frame_get : frame.

Ltac frame :=
  repeat first
    [ solve [auto with frame]
    | apply frame_bind; [ | intros ? ]
    | apply frame_try_except; [ | intros ? ]
    | match goal with
      | |- keeps _ (match ?x with _ => _ end) => destruct x
      | |- keeps _ (if ?x then _ else _) => destruct x
      | |- keeps _ (with_path ?x _) => destruct x; unfold with_path
      | |- keeps _ pass => apply frame_ret
      end ].

Lemma frame_produce_audio cfg text lang o :
  keeps same_flags_and_mixer (produce_audio cfg text lang o).
Proof.
  unfold produce_audio, offline_route, synthesize_mp3, synthesis_failed, convert_to_wav, keep_mp3.
  frame.
Qed.

Lemma generate_flags cfg text lang o w :
  is_playing (self (snd (generate cfg text lang o w))) = false /\
  paused (self (snd (generate cfg text lang o w))) = false /\
  quiet (snd (generate cfg text lang o w)) = true.
Proof.
  rewrite generate_eq.
  destruct (frame_produce_audio cfg text lang o (cleaned cfg w)) as (Hp & Hq & Hm).
  rewrite Hp, Hq. unfold quiet. rewrite Hm.
  rewrite cleaned_eq. cbn. destruct (pygame w); auto.
Qed.

(** ** One call of [generate], route by route *)

Ltac route_done :=
  let H := fresh in
  cbn; intros H; inversion H; subst; clear H; cbn; repeat split; eauto 10.

Lemma generate_by_route cfg text lang o w :
  generate_outcome cfg o (cleaned cfg w) (route cfg text lang o w)
    (fst (generate cfg text lang o w)) (snd (generate cfg text lang o w)) /\
  pygame (snd (generate cfg text lang o w)) = pygame (cleaned cfg w) /\
  audio_device (snd (generate cfg text lang o w)) = audio_device (cleaned cfg w).
Proof.
  rewrite generate_eq. unfold route.
  pose proof (quiet_cleaned cfg w) as Hq.
  assert (Hs : self (cleaned cfg w) = TTSPlayer_init) by (rewrite cleaned_eq; reflexivity).
  revert Hq Hs. generalize (cleaned cfg w) as w1. intros w1 Hq Hs.
  destruct (produce_audio cfg text lang o w1) as [r w'] eqn:Hgen. cbn [fst snd].
  revert Hgen. unfold produce_audio. unfold bind at 1.
  destruct (offline_wanted cfg lang) eqn:Hoff.
  - pose proof (offline_wanted_true _ _ Hoff) as Hg.
    rewrite offline_route_eq by assumption. cbn zeta.
    destruct w1 as [s1 g1 dev1 f1 out1 cs1]. cbn in Hs. subst s1. rewrite Hg. cbn.
    destruct (tmp_offline o) as [x|] eqn:Hto; [|route_done].
    destruct (f1 !! temp_name "tmp" x ".wav") eqn:Hx; [route_done|].
    destruct (offline_tts o); route_done.
  - rewrite offline_route_skipped by assumption.
    destruct (gTTS cfg) eqn:Hg; cbn [negb]; [|route_done].
    unfold bind at 1. rewrite synthesize_mp3_eq by assumption. cbn zeta.
    destruct (tmp_mp3 o) as [m|] eqn:Htm; [|route_done].
    destruct (fs w1 !! temp_name "tts_" m ".mp3") eqn:Hm; [route_done|].
    destruct (network_tts o); [|route_done].
    destruct (AudioSegment cfg) eqn:Ha; cbn [negb].
    2:{ destruct w1 as [s1 g1 dev1 f1 out1 cs1]. cbn in Hs. subst s1. route_done. }
    match goal with
    | |- context [convert_to_wav cfg o ?w2] =>
        pose proof (convert_to_wav_eq cfg o w2 _ Mp3 Hq eq_refl (lookup_insert_eq _ _ _)) as Hconv
    end.
    unfold bind at 1. unfold try_except at 1. unfold bind at 1.
    rewrite Hconv. clear Hconv. cbn [fs self]. cbn zeta.
    destruct w1 as [s1 g1 dev1 f1 out1 cs1]. cbn in Hs, Hm. subst s1.
    destruct (tmp_wav o) as [x|] eqn:Htw; [|route_done].
    cbn.
    destruct (<[temp_name "tts_" m ".mp3" := Mp3]> f1 !! temp_name "tts_" x ".wav") eqn:Hx;
      [route_done|].
    pose proof Hx as Hx'. apply lookup_insert_None in Hx' as [Hx1 Hne].
    destruct (decode o), (export o); route_done.
Qed.

(** ** Playback *)

Lemma play_needs_audio w w1 :
  ensure_pygame w = (Ok tt, w1) ->
  audio_file (self w) = None ->
  play w = (Raise (RuntimeError "No audio file to play. Generate it first."), w1).
Proof.
  intros He Hno. unfold play. unfold bind at 1. rewrite He.
  unfold bind, get. cbn.
  rewrite ensure_pygame_eq in He.
  destruct w as [[af raw ip pa] [[|m]|] [|] f out cs]; cbn in *; subst af;
    inversion He; subst; reflexivity.
Qed.

Lemma play_ok w w1 p c :
  ensure_pygame w = (Ok tt, w1) ->
  audio_file (self w) = Some p -> String.eqb p "" = false ->
  fs w !! p = Some c -> c <> Empty ->
  play w =
  (Ok tt, mkWorld (mkTTSPlayer (Some p) (_raw_mp3 (self w)) true false)
            (Some (MixerOn (mkMusic (Some p) Sounding)))
            (audio_device w) (fs w) (stdout w)
            (c_play :: c_load p :: c_stop :: calls w1)).
Proof.
  intros He Haf Hp Hf Hc. rewrite ensure_pygame_eq in He.
  destruct w as [[af raw ip pa] [[|m]|] [|] f out cs]; cbn in *; subst af;
    inversion He; subst; clear He.
  all: unfold play, load_and_play, ensure_pygame, PYGAME_AVAILABLE, mixer_get_init,
         mixer_init, music_stop, music_play, music_load, on_music, truthy; monad_step.
  all: rewrite Hp; cbn; rewrite Hf; cbn; rewrite ?Hf.
  all: destruct c; try congruence; reflexivity.
Qed.

Lemma stop_facts w :
  fst (stop w) = Ok tt /\
  (forall e, fst (ensure_pygame w) = Raise e ->
     snd (stop w) = add_stdout ("Stop error: " +:+ str e) w) /\
  (coherent w = true ->
     is_playing (self (snd (stop w))) = false /\ paused (self (snd (stop w))) = false) /\
  (let w1 := snd (stop w) in
   self (snd (stop w1)) = self w1 /\ pygame (snd (stop w1)) = pygame w1 /\
   fs (snd (stop w1)) = fs w1).
Proof.
  world_cases w; method_cases; cbn; repeat split; intros; try discriminate; try reflexivity.
  all: match goal with H : _ = Raise _ |- _ => inversion H; subst; reflexivity end.
Qed.

(** ** Histories *)

Lemma perform_coherent cfg a w : coherent w = true -> coherent (perform cfg a w) = true.
Proof.
  destruct a; cbn [perform].
  - intros _. unfold coherent.
    destruct (generate_flags cfg text lang o w) as (-> & -> & _). reflexivity.
  - world_cases w; intros H; try discriminate H; method_cases; reflexivity.
  - world_cases w; intros H; try discriminate H; method_cases; reflexivity.
  - world_cases w; intros H; try discriminate H; method_cases; reflexivity.
  - world_cases w; intros H; try discriminate H; method_cases; reflexivity.
  - world_cases w; intros H; try discriminate H; method_cases; reflexivity.
  - intros _. unfold coherent. destruct (cleanup_self cfg w) as [-> _]. reflexivity.
  - world_cases w; intros H; try discriminate H; reflexivity.
  - world_cases w; intros H; try discriminate H; reflexivity.
  - world_cases w; intros H; try discriminate H; reflexivity.
Qed.

Lemma just_constructed_coherent w : just_constructed w = true -> coherent w = true.
Proof.
  unfold just_constructed, coherent.
  destruct w as [[[?|] [?|] [|] [|]] [[|?]|] ? ? ? ?]; cbn; auto.
Qed.

Lemma run_coherent cfg history w : coherent w = true -> coherent (run cfg history w) = true.
Proof.
  revert w. induction history as [|a history IH]; intros w Hw; [exact Hw|].
  cbn. apply IH, perform_coherent, Hw.
Qed.

(** * The claims *)

(** C1. After a successful call of [generate] in which the WAV conversion
    is available and succeeds, exactly one final audio file is tracked:
    [audio_file] is the new WAV path, which was not on storage when the
    production started; the raw intermediate MP3 has been deleted from
    storage and [_raw_mp3] is [None]; no file of a prior generation remains
    tracked, and the prior files have been removed. *)
Theorem generate_wav_tracks_one_file cfg text lang o w :
  route cfg text lang o w = via_wav ->
  let w' := snd (generate cfg text lang o w) in
  exists m x,
    tmp_mp3 o = Some m /\ tmp_wav o = Some x /\
    let mp3 := temp_name "tts_" m ".mp3" in
    let wav := temp_name "tts_" x ".wav" in
    fst (generate cfg text lang o w) = Ok (Some wav) /\
    audio_file (self w') = Some wav /\
    _raw_mp3 (self w') = None /\
    tracked_paths (self w') = [wav] /\
    fs w' !! wav = Some Wav /\
    fs w' !! mp3 = None /\
    fs (cleaned cfg w) !! wav = None /\
    (forall p, p ∈ tracked_paths (self w) -> fs (cleaned cfg w) !! p = None) /\
    (forall p, p ∈ tracked_paths (self w) -> p <> wav -> fs w' !! p = None).
Proof.
  intros Hroute w'.
  destruct (generate_by_route cfg text lang o w) as (Hout & _).
  rewrite Hroute in Hout. fold w' in Hout.
  destruct Hout as (_ & _ & m & x & Hm & Hx & Hr & Hfm & Hfx & Hne & Hself & Hfs).
  assert (Hold : forall p, p ∈ tracked_paths (self w) -> fs (cleaned cfg w) !! p = None).
  { intros p Hp. rewrite cleaned_eq. cbn. by apply forget_lookup_None. }
  exists m, x. cbn zeta. rewrite Hself, Hfs. cbn.
  repeat split; auto.
  - rewrite lookup_delete_ne by exact Hne. apply lookup_insert_eq.
  - apply lookup_delete_eq.
  - intros p Hp Hpw. rewrite lookup_delete. case_decide; [reflexivity|].
    rewrite !lookup_insert_ne by congruence. auto.
Qed.

Lemma generate_wav_tracks_one_file_witness :
  route all_installed "Hola" "es" smooth_again playing_world = via_wav /\
  tracked_paths (self playing_world) = ["tts_c.wav"] /\
  tracked_paths
    (self (snd (generate all_installed "Hola" "es" smooth_again playing_world)))
  = ["tts_f.wav"] /\
  fs (snd (generate all_installed "Hola" "es" smooth_again playing_world)) !! "tts_e.mp3"
  = None.
Proof.
  assert (Hroute : route all_installed "Hola" "es" smooth_again playing_world = via_wav)
    by (vm_compute; reflexivity).
  split; [exact Hroute|]. split; [vm_compute; reflexivity|].
  destruct (generate_wav_tracks_one_file _ _ _ _ _ Hroute)
    as (m & x & Hm & Hx & _ & _ & _ & Htracked & _ & Hmp3 & _).
  injection Hm as <-. injection Hx as <-.
  split; [exact Htracked | exact Hmp3].
Defined.

(** C2. Every call of [generate] first stops playback, releases the audio
    device's hold on the loaded file and deletes the previously tracked
    files, and only then produces new audio: what follows runs in a world
    where the mixer is shut down, no file is held open, the tracked files
    are gone and nothing has been added.  In particular a second call while
    a first asset is loaded removes the first asset's file, and on success
    tracks a file that did not exist before. *)
Theorem generate_cleans_up_first cfg text lang o w :
  let w1 := cleaned cfg w in
  let w' := snd (generate cfg text lang o w) in
  generate cfg text lang o w = produce_audio cfg text lang o w1 /\
  quiet w1 = true /\
  (forall p, held_open w1 p = false) /\
  (quiet w = false -> calls w1 = c_quit :: c_stop :: calls w) /\
  (forall p, p ∈ tracked_paths (self w) -> fs w1 !! p = None) /\
  (forall p c, fs w1 !! p = Some c -> fs w !! p = Some c) /\
  self w1 = TTSPlayer_init /\
  (forall p', fst (generate cfg text lang o w) = Ok (Some p') ->
     audio_file (self w') = Some p' /\ fs w1 !! p' = None /\ is_Some (fs w' !! p')).
Proof.
  intros w1 w'.
  pose proof (quiet_cleaned cfg w) as Hq. fold w1 in Hq.
  split; [apply generate_eq|]. split; [exact Hq|].
  split. { intros p. unfold held_open. unfold quiet in Hq.
           destruct (pygame w1) as [[|m]|]; try reflexivity; discriminate Hq. }
  split. { subst w1. rewrite cleaned_eq. destruct w as [s [[|m]|] ? ? ? ?]; cbn; auto; discriminate. }
  split. { intros p Hp. subst w1. rewrite cleaned_eq. cbn. by apply forget_lookup_None. }
  split. { intros p c. subst w1. rewrite cleaned_eq. cbn. apply forget_lookup_Some. }
  split. { subst w1. rewrite cleaned_eq. reflexivity. }
  intros p' Hp'.
  destruct (generate_by_route cfg text lang o w) as (Hout & _).
  fold w1 w' in Hout. rewrite Hp' in Hout.
  destruct (route cfg text lang o w); cbn in Hout.
  - destruct Hout as (_ & x & _ & Hr & Hfresh & -> & ->). inversion Hr; subst.
    cbn. rewrite lookup_insert_eq. eauto.
  - destruct Hout as (_ & Hr & _). discriminate Hr.
  - destruct Hout as (_ & (msg & Hr) & _). discriminate Hr.
  - destruct Hout as (_ & _ & m & x & _ & _ & Hr & Hm & Hx & Hne & -> & ->).
    inversion Hr; subst. cbn.
    rewrite lookup_delete_ne by exact Hne. rewrite lookup_insert_eq. eauto.
  - destruct Hout as (_ & _ & m & _ & Hr & Hm & -> & ->). inversion Hr; subst.
    cbn. rewrite lookup_insert_eq. eauto.
  - destruct Hout as (_ & _ & m & _ & Hr & Hm & -> & Hfs). inversion Hr; subst.
    cbn. repeat split; auto.
    destruct Hfs as [-> | (x & _ & Hx & ->)].
    + rewrite lookup_insert_eq. eauto.
    + apply lookup_insert_None in Hx as [_ Hne].
      rewrite lookup_insert_ne by congruence. rewrite lookup_insert_eq. eauto.
Qed.

Lemma generate_cleans_up_first_witness :
  quiet playing_world = false /\
  held_open playing_world "tts_c.wav" = true /\
  calls (cleaned all_installed playing_world) = c_quit :: c_stop :: calls playing_world /\
  fs (cleaned all_installed playing_world) !! "tts_c.wav" = None /\
  audio_file (self (snd (generate all_installed "Hola" "es" smooth_again playing_world)))
  = Some "tts_f.wav".
Proof.
  destruct (generate_cleans_up_first all_installed "Hola" "es" smooth_again playing_world)
    as (_ & _ & _ & Hcalls & Hgone & _ & _ & Hnew).
  assert (Hq : quiet playing_world = false) by (vm_compute; reflexivity).
  assert (Hin : "tts_c.wav" ∈ tracked_paths (self playing_world))
    by (vm_compute; constructor).
  assert (Hok : fst (generate all_installed "Hola" "es" smooth_again playing_world)
                = Ok (Some "tts_f.wav")) by (vm_compute; reflexivity).
  split; [exact Hq|]. split; [vm_compute; reflexivity|].
  split; [exact (Hcalls Hq)|]. split; [exact (Hgone _ Hin)|].
  exact (proj1 (Hnew _ Hok)).
Defined.

(** C3. On a player that has no audio file ([audio_file] is [None]) or
    whose audio file is absent from storage, [play()] raises the
    RuntimeError "No audio file to play. Generate it first." and changes
    nothing, assuming the audio device subsystem is available
    ([ensure_pygame] succeeds). *)
Theorem play_without_audio_fails w w1 :
  ensure_pygame w = (Ok tt, w1) ->
  (audio_file (self w) = None \/
   exists p, audio_file (self w) = Some p /\ fs w !! p = None) ->
  play w = (Raise (RuntimeError "No audio file to play. Generate it first."), w1)
  /\ self w1 = self w /\ fs w1 = fs w.
Proof.
  intros He Hno. unfold play. unfold bind at 1. rewrite He.
  rewrite ensure_pygame_eq in He.
  destruct w as [[af raw ip pa] [[|m]|] [|] f out cs]; simpl in *; inversion He; subst; clear He.
  all: destruct Hno as [-> | (p & -> & Hp)]; cbn.
  all: try (split; [reflexivity | split; reflexivity]).
  all: unfold bind, os_path_exists, get; cbn; rewrite ?Hp; cbn.
  all: destruct (negb (String.eqb p "")); cbn; rewrite ?Hp; cbn; auto.
Qed.

Lemma play_without_audio_fails_witness :
  ensure_pygame new_world = (Ok tt, snd (ensure_pygame new_world)) /\
  audio_file (self new_world) = None /\
  fst (play new_world) = Raise (RuntimeError "No audio file to play. Generate it first.").
Proof.
  assert (He : ensure_pygame new_world = (Ok tt, snd (ensure_pygame new_world)))
    by reflexivity.
  split; [exact He|]. split; [reflexivity|].
  destruct (play_without_audio_fails _ _ He (or_introl eq_refl)) as [-> _].
  reflexivity.
Defined.

(** C4 (the code departs from the claim). The offline route creates its
    temporary WAV with [mkstemp]; when pyttsx3 then fails, [generate] goes
    on to raise "gTTS not available" and the file stays on storage,
    tracked by nobody. *)
Theorem offline_failure_leaves_temp_file :
  let w' := snd (generate offline_only "Hello" "en" no_speech_driver new_world) in
  fst (generate offline_only "Hello" "en" no_speech_driver new_world)
  = Raise (RuntimeError "gTTS not available. Install gTTS (pip install gTTS).") /\
  fs new_world !! "tmpa.wav" = None /\
  fs w' !! "tmpa.wav" = Some Empty /\
  tracked_paths (self w') = [].
Proof. vm_compute. repeat split; reflexivity. Qed.

(** The same happens to the WAV allocated for a conversion that fails,
    although [generate] then returns the mp3 instead of raising. *)
Lemma conversion_failure_leaves_temp_file :
  let w' := snd (generate all_installed "Hola" "es" no_ffmpeg new_world) in
  fst (generate all_installed "Hola" "es" no_ffmpeg new_world) = Ok (Some "tts_b.mp3") /\
  fs w' !! "tts_c.wav" = Some Empty /\
  tracked_paths (self w') = ["tts_b.mp3"; "tts_b.mp3"].
Proof. vm_compute. repeat split; reflexivity. Qed.

(** In general: whenever the offline route is tried, [mkstemp] has handed
    out a file and pyttsx3 then fails, [generate] raises and leaves that
    file behind. *)
Lemma offline_failure_orphans cfg text lang o w x msg :
  offline_wanted cfg lang = true ->
  tmp_offline o = Some x ->
  fs (cleaned cfg w) !! temp_name "tmp" x ".wav" = None ->
  offline_tts o = Fails msg ->
  let w' := snd (generate cfg text lang o w) in
  fst (generate cfg text lang o w)
  = Raise (RuntimeError "gTTS not available. Install gTTS (pip install gTTS).") /\
  fs w' !! temp_name "tmp" x ".wav" = Some Empty /\
  tracked_paths (self w') = [].
Proof.
  intros Hoff Hx Hfresh Hfail. cbn zeta. rewrite generate_eq.
  assert (Hs : self (cleaned cfg w) = TTSPlayer_init) by (rewrite cleaned_eq; reflexivity).
  revert Hfresh Hs. generalize (cleaned cfg w) as w1. intros w1 Hfresh Hs.
  unfold produce_audio, bind.
  rewrite offline_route_eq by assumption. cbn zeta.
  rewrite Hx, Hfresh, Hfail, (offline_wanted_true _ _ Hoff).
  destruct w1 as [s1 g1 dev1 f1 out1 cs1]. cbn in Hs. subst s1. cbn.
  rewrite lookup_insert_eq. auto.
Qed.

(** C5 as stated fails twice over: without gTTS the offline route returns
    pyttsx3's WAV although no converter is installed, and without pygame
    [play()] raises whatever format the file has. *)
Lemma mp3_fallback_counterexample :
  (AudioSegment offline_only = false /\
   fst (generate offline_only "Hello" "en" smooth new_world) = Ok (Some "tmpa.wav") /\
   _raw_mp3 (self (snd (generate offline_only "Hello" "en" smooth new_world))) = None) /\
  (AudioSegment no_converter = false /\
   fst (generate no_converter "Hola" "es" smooth no_pygame_world) = Ok (Some "tts_b.mp3") /\
   fst (play (snd (generate no_converter "Hola" "es" smooth no_pygame_world)))
   = Raise (RuntimeError
       "pygame is required for audio playback. Install pygame in this environment.")).
Proof. vm_compute. repeat split; reflexivity. Qed.

(** C5, amended. When gTTS has synthesised the raw MP3 and the conversion
    is unavailable or fails, [generate] returns the raw MP3 as the final
    asset ([audio_file] equals [_raw_mp3]), the file holds the MP3 data, and
    [play()] on that player succeeds whenever the audio device subsystem is
    available. *)
Theorem generate_keeps_mp3_when_unconverted cfg text lang o w :
  route cfg text lang o w = via_mp3_unconverted \/
  route cfg text lang o w = via_mp3_conversion_failed ->
  let w' := snd (generate cfg text lang o w) in
  exists m, tmp_mp3 o = Some m /\
    let mp3 := temp_name "tts_" m ".mp3" in
    fst (generate cfg text lang o w) = Ok (Some mp3) /\
    audio_file (self w') = Some mp3 /\
    _raw_mp3 (self w') = Some mp3 /\
    fs w' !! mp3 = Some Mp3 /\
    forall w1, ensure_pygame w' = (Ok tt, w1) ->
      exists w2, play w' = (Ok tt, w2) /\
        is_playing (self w2) = true /\ paused (self w2) = false /\
        pygame w2 = Some (MixerOn (mkMusic (Some mp3) Sounding)).
Proof.
  intros Hroute w'.
  destruct (generate_by_route cfg text lang o w) as (Hout & _). fold w' in Hout.
  assert (H : exists m, tmp_mp3 o = Some m /\
            fst (generate cfg text lang o w) = Ok (Some (temp_name "tts_" m ".mp3")) /\
            self w' = mkTTSPlayer (Some (temp_name "tts_" m ".mp3"))
                        (Some (temp_name "tts_" m ".mp3")) false false /\
            fs w' !! temp_name "tts_" m ".mp3" = Some Mp3).
  { destruct Hroute as [Hroute|Hroute]; rewrite Hroute in Hout; cbn in Hout.
    - destruct Hout as (_ & _ & m & Hm & Hr & _ & Hself & Hfs).
      exists m. rewrite Hfs, lookup_insert_eq. auto.
    - destruct Hout as (_ & _ & m & Hm & Hr & _ & Hself & Hfs).
      exists m. repeat split; auto.
      destruct Hfs as [-> | (x & _ & Hx & ->)]; [apply lookup_insert_eq|].
      apply lookup_insert_None in Hx as [_ Hne].
      rewrite lookup_insert_ne by congruence. apply lookup_insert_eq. }
  destruct H as (m & Hm & Hr & Hself & Hfs).
  exists m. cbn zeta. rewrite Hself. cbn. repeat split; auto.
  intros w1 He.
  erewrite play_ok; [ | exact He | rewrite Hself; reflexivity | reflexivity | exact Hfs | discriminate].
  eexists. split; [reflexivity|]. cbn. auto.
Qed.

Lemma generate_keeps_mp3_when_unconverted_witness :
  (route no_converter "Hola" "es" smooth new_world = via_mp3_unconverted \/
   route no_converter "Hola" "es" smooth new_world = via_mp3_conversion_failed) /\
  audio_file (self (snd (generate no_converter "Hola" "es" smooth new_world)))
  = Some "tts_b.mp3" /\
  fst (play (snd (generate no_converter "Hola" "es" smooth new_world))) = Ok tt.
Proof.
  assert (Hroute : route no_converter "Hola" "es" smooth new_world = via_mp3_unconverted)
    by (vm_compute; reflexivity).
  split; [left; exact Hroute|].
  destruct (generate_keeps_mp3_when_unconverted _ _ _ _ _ (or_introl Hroute))
    as (m & Hm & _ & Haf & _ & _ & Hplay).
  injection Hm as <-. split; [exact Haf|].
  destruct (Hplay (snd (ensure_pygame
              (snd (generate no_converter "Hola" "es" smooth new_world)))))
    as (w2 & -> & _); [vm_compute; reflexivity | reflexivity].
Defined.

(** C6. On every world a history of operations leads to, [stop()] called
    twice in a row raises nothing, leaves the player Stopped
    ([is_playing = False], [paused = False]) after the first call and after
    the second, and the second call changes neither the player, the mixer
    nor the storage; an exception inside [stop] is caught and is a no-op
    (but for the printed line). *)
Theorem stop_twice_is_safe cfg history w0 :
  just_constructed w0 = true ->
  let w := run cfg history w0 in
  let w1 := snd (stop w) in
  let w2 := snd (stop w1) in
  fst (stop w) = Ok tt /\ fst (stop w1) = Ok tt /\
  (is_playing (self w1) = false /\ paused (self w1) = false) /\
  (is_playing (self w2) = false /\ paused (self w2) = false) /\
  (self w2 = self w1 /\ pygame w2 = pygame w1 /\ fs w2 = fs w1) /\
  (forall e, fst (ensure_pygame w) = Raise e ->
     w1 = add_stdout ("Stop error: " +:+ str e) w).
Proof.
  intros H0 w w1 w2.
  assert (Hw : coherent w = true) by (apply run_coherent, just_constructed_coherent, H0).
  destruct (stop_facts w) as (Hok & Hexn & Hflags & Hself & Hmix & Hfs).
  destruct (stop_facts w1) as (Hok1 & _).
  specialize (Hflags Hw). subst w2. fold w1 in Hflags, Hself, Hmix, Hfs.
  rewrite Hself. repeat split; auto; tauto.
Qed.

Lemma stop_twice_is_safe_witness :
  just_constructed new_world = true /\
  is_playing (self playing_world) = true /\
  is_playing (self (snd (stop playing_world))) = false /\
  fst (stop (snd (stop playing_world))) = Ok tt.
Proof.
  assert (H0 : just_constructed new_world = true) by reflexivity.
  destruct (stop_twice_is_safe all_installed
              [a_generate "Hello" "en" smooth; a_play] new_world H0)
    as (_ & Hok & (Hflag & _) & _).
  split; [exact H0|]. split; [vm_compute; reflexivity|].
  split; [exact Hflag | exact Hok].
Defined.

(** C7 as stated fails: [pause()] tests the device, not [is_playing].
    After [play()] and [cleanup()] the player is neither Playing nor Paused
    while the device still sounds, and [pause()] makes it Paused. *)
Lemma pause_acts_when_not_playing :
  let w := run all_installed [a_generate "Hello" "en" smooth; a_play; a_cleanup] new_world in
  is_playing (self w) = false /\ paused (self w) = false /\
  busy w = true /\
  paused (self (snd (pause w))) = true.
Proof. vm_compute. repeat split; reflexivity. Qed.

(** C7, amended. From the Playing state, [pause()] then [resume()] brings
    the player back to Playing ([is_playing = True], [paused = False])
    without loading the audio file again; [pause()] is a no-op unless the
    device is busy and the player is not paused, and [resume()] is a no-op
    unless the player is Paused. *)
Theorem pause_then_resume w :
  let w1 := snd (pause w) in
  let w2 := snd (resume w1) in
  (is_playing (self w) = true -> paused (self w) = false ->
     fst (pause w) = Ok tt /\ fst (resume w1) = Ok tt /\
     is_playing (self w2) = true /\ paused (self w2) = false /\
     audio_file (self w2) = audio_file (self w) /\
     loaded (music_of w2) = loaded (music_of w) /\
     loaded_files (calls w2) = loaded_files (calls w) /\
     fs w2 = fs w) /\
  (busy w = false \/ paused (self w) = true -> untouched w w1) /\
  (paused (self w) = false -> untouched w (snd (resume w))).
Proof.
  unfold untouched.
  world_cases w; method_cases; cbn; repeat split; intros; try discriminate; try reflexivity.
  all: intuition discriminate.
Qed.

Lemma pause_then_resume_witness :
  is_playing (self playing_world) = true /\
  paused (self playing_world) = false /\
  paused (self (snd (pause playing_world))) = true /\
  is_playing (self (snd (resume (snd (pause playing_world))))) = true /\
  loaded_files (calls (snd (resume (snd (pause playing_world)))))
  = loaded_files (calls playing_world).
Proof.
  assert (H1 : is_playing (self playing_world) = true) by (vm_compute; reflexivity).
  assert (H2 : paused (self playing_world) = false) by (vm_compute; reflexivity).
  destruct (pause_then_resume playing_world) as (Hround & _).
  destruct (Hround H1 H2) as (_ & _ & Hplaying & _ & _ & _ & Hloads & _).
  split; [exact H1|]. split; [exact H2|]. split; [vm_compute; reflexivity|].
  split; [exact Hplaying | exact Hloads].
Defined.

(** Where the flags and the device can fall out of step: only through a
    direct [cleanup()].  In every history without one (the app calls
    [cleanup] through [generate], and on closing), the device sounds only
    while the player is Playing, and [pause()] is a no-op unless Playing. *)
Lemma perform_in_step cfg a w :
  is_cleanup a = false -> in_step w = true -> in_step (perform cfg a w) = true.
Proof.
  destruct a; cbn [perform is_cleanup]; intros Ha; try discriminate Ha.
  - intros _. unfold in_step, busy.
    destruct (generate_flags cfg text lang o w) as (_ & _ & Hq). unfold quiet in Hq.
    destruct (pygame _) as [[|?]|]; try reflexivity; discriminate Hq.
  - world_cases w; intros H; try discriminate H; method_cases; reflexivity.
  - world_cases w; intros H; try discriminate H; method_cases; reflexivity.
  - world_cases w; intros H; try discriminate H; method_cases; reflexivity.
  - world_cases w; intros H; try discriminate H; method_cases; reflexivity.
  - world_cases w; intros H; try discriminate H; method_cases; reflexivity.
  - world_cases w; intros H; try discriminate H; reflexivity.
  - world_cases w; intros H; try discriminate H; reflexivity.
  - world_cases w; intros H; try discriminate H; reflexivity.
Qed.

Lemma run_in_step cfg history w :
  forallb (fun a => negb (is_cleanup a)) history = true ->
  in_step w = true -> in_step (run cfg history w) = true.
Proof.
  revert w. induction history as [|a history IH]; intros w Hh Hw; [exact Hw|].
  cbn in Hh. apply andb_true_iff in Hh as [Ha Hh].
  cbn. apply IH; [exact Hh|]. apply perform_in_step; [|exact Hw].
  destruct (is_cleanup a); [discriminate Ha | reflexivity].
Qed.

Lemma pause_idle_device w :
  busy w = false \/ paused (self w) = true -> untouched w (snd (pause w)).
Proof.
  unfold untouched.
  world_cases w; method_cases; cbn; intros [H|H]; try discriminate H; auto.
Qed.

Lemma pause_is_noop_unless_playing cfg history w0 :
  just_constructed w0 = true ->
  forallb (fun a => negb (is_cleanup a)) history = true ->
  let w := run cfg history w0 in
  is_playing (self w) = false \/ paused (self w) = true ->
  untouched w (snd (pause w)).
Proof.
  intros H0 Hh w Hnot.
  assert (Hw : in_step w = true).
  { apply run_in_step; [exact Hh|].
    unfold just_constructed in H0. unfold in_step, busy.
    destruct (pygame w0) as [[|?]|]; try reflexivity.
    rewrite andb_false_r in H0. discriminate H0. }
  apply pause_idle_device.
  unfold in_step in Hw. destruct Hnot as [Hn|Hn]; [|right; exact Hn].
  rewrite Hn in Hw. left. destruct (busy w); [discriminate Hw | reflexivity].
Qed.

(** C8. When the definitions endpoint answers with a status other than
    200, the lookup returns normally and the meaning box shows the search
    line followed by 'No definition found for "word".'; nothing is raised
    and nothing is printed. *)
Theorem lookup_without_success_status py_repr sv word app code body :
  http sv = responds code body ->
  code <> 200%Z ->
  _fetch_meaning_thread py_repr sv word app =
  (Ok tt, mkApp (searching word +:+ no_definition word) (lang_var app) (console app)).
Proof.
  intros Hhttp Hcode.
  unfold _fetch_meaning_thread, requests_get, try_except, bind, box_clear,
    box_insert_first, box_insert_end, modify, ret.
  rewrite Hhttp. cbn [fst snd meaning_box lang_var console].
  apply Z.eqb_neq in Hcode. rewrite Hcode. cbn [negb meaning_box lang_var console].
  fold (searching word). rewrite append_empty_r. reflexivity.
Qed.

Lemma lookup_without_success_status_witness :
  http lookup_404 = responds 404 None /\
  404%Z <> 200%Z /\
  _fetch_meaning_thread (fun _ => "") lookup_404 "zzyzx" (mkApp "old text" "Hindi (hi)" [])
  = (Ok tt, mkApp (searching "zzyzx" +:+ no_definition "zzyzx") "Hindi (hi)" []).
Proof.
  assert (Hc : 404%Z <> 200%Z) by discriminate.
  split; [reflexivity|]. split; [exact Hc|].
  exact (lookup_without_success_status (fun _ => "") lookup_404 "zzyzx"
           (mkApp "old text" "Hindi (hi)" []) 404 None eq_refl Hc).
Defined.

(** C9. The constructor establishes, and every operation (generate, play,
    pause, resume, stop, replay, cleanup) preserves, whether it returns or
    raises, that the player is never both Playing and Paused. *)
Theorem flags_never_both_set cfg :
  flags_consistent TTSPlayer_init /\
  forall a w, flags_consistent (self w) -> flags_consistent (self (perform cfg a w)).
Proof.
  split; [intros [H _]; discriminate H|].
  intros a w Hw. unfold flags_consistent in *.
  destruct a; cbn [perform].
  - destruct (generate_flags cfg text lang o w) as (-> & _). intros [H _]; discriminate H.
  - world_cases w; cbn in Hw; try tauto; method_cases; intros [? ?]; discriminate.
  - world_cases w; cbn in Hw; try tauto; method_cases; intros [? ?]; discriminate.
  - world_cases w; cbn in Hw; try tauto; method_cases; intros [? ?]; discriminate.
  - world_cases w; cbn in Hw; try tauto; method_cases; intros [? ?]; discriminate.
  - world_cases w; cbn in Hw; try tauto; method_cases; intros [? ?]; discriminate.
  - destruct (cleanup_self cfg w) as [-> _]. intros [H _]; discriminate H.
  - world_cases w; cbn in *; tauto.
  - destruct w; exact Hw.
  - destruct w; exact Hw.
Qed.

Lemma flags_never_both_set_witness :
  flags_consistent (self playing_world) /\
  flags_consistent (self (perform all_installed a_pause playing_world)).
Proof.
  assert (H : flags_consistent (self playing_world))
    by (intros [_ Hp]; vm_compute in Hp; discriminate Hp).
  split; [exact H|].
  exact (proj2 (flags_never_both_set all_installed) a_pause playing_world H).
Defined.

(** C10 as stated fails where pygame is missing: after the failed
    regeneration [play()] raises the pygame error, not the no-audio one. *)
Lemma failed_generate_without_pygame :
  let w := run no_converter [a_generate "Hello" "en" smooth] no_pygame_world in
  let w' := snd (generate no_converter "Hola" "es" network_down w) in
  audio_file (self w) = Some "tts_b.mp3" /\
  fst (generate no_converter "Hola" "es" network_down w)
  = Raise (RuntimeError "gTTS generation failed: network unreachable") /\
  fst (play w')
  = Raise (RuntimeError
      "pygame is required for audio playback. Install pygame in this environment.").
Proof. vm_compute. repeat split; reflexivity. Qed.

(** C10, amended. [generate] is not atomic on failure: when it fails at
    the network-synthesis step the previously tracked files are already
    deleted, no temporary file is left and [audio_file] is [None] when the
    error propagates; a subsequent [play()] raises, with the no-audio error
    whenever the audio device subsystem is available. *)
Theorem failed_synthesis_leaves_nothing_playable cfg text lang o w :
  route cfg text lang o w = synthesis_fails ->
  let w' := snd (generate cfg text lang o w) in
  (exists msg, fst (generate cfg text lang o w) =
               Raise (RuntimeError ("gTTS generation failed: " +:+ msg))) /\
  audio_file (self w') = None /\
  (forall p, p ∈ tracked_paths (self w) -> fs w' !! p = None) /\
  fs w' = fs (cleaned cfg w) /\
  (exists e, fst (play w') = Raise e) /\
  (forall w1, ensure_pygame w' = (Ok tt, w1) ->
     play w' = (Raise (RuntimeError "No audio file to play. Generate it first."), w1)).
Proof.
  intros Hroute w'.
  destruct (generate_by_route cfg text lang o w) as (Hout & _). fold w' in Hout.
  rewrite Hroute in Hout. destruct Hout as (_ & Hr & Hself & Hfs).
  assert (Haf : audio_file (self w') = None) by (rewrite Hself; reflexivity).
  assert (Hplay : forall w1, ensure_pygame w' = (Ok tt, w1) ->
     play w' = (Raise (RuntimeError "No audio file to play. Generate it first."), w1)).
  { intros w1 He. apply (play_needs_audio w' w1 He). exact Haf. }
  repeat split; auto.
  - intros p Hp. rewrite Hfs, cleaned_eq. cbn. by apply forget_lookup_None.
  - destruct (ensure_pygame w') as [[[]|e] w1] eqn:He.
    + rewrite (Hplay w1 eq_refl). eauto.
    + unfold play. unfold bind at 1. rewrite He. eauto.
Qed.

Lemma failed_synthesis_leaves_nothing_playable_witness :
  route all_installed "Hola" "es" network_down playing_world = synthesis_fails /\
  fs playing_world !! "tts_c.wav" = Some Wav /\
  fs (snd (generate all_installed "Hola" "es" network_down playing_world)) !! "tts_c.wav"
  = None /\
  fst (play (snd (generate all_installed "Hola" "es" network_down playing_world)))
  = Raise (RuntimeError "No audio file to play. Generate it first.").
Proof.
  assert (Hroute : route all_installed "Hola" "es" network_down playing_world
                   = synthesis_fails) by (vm_compute; reflexivity).
  destruct (failed_synthesis_leaves_nothing_playable _ _ _ _ _ Hroute)
    as (_ & _ & Hgone & _ & _ & Hplay).
  split; [exact Hroute|]. split; [vm_compute; reflexivity|].
  split.
  - apply Hgone. vm_compute. constructor.
  - rewrite (Hplay (snd (ensure_pygame
      (snd (generate all_installed "Hola" "es" network_down playing_world)))));
      [reflexivity | vm_compute; reflexivity].
Defined.

(** * Further properties *)

(** ** Clean-up and the mixer *)

Lemma remove_if_there_gen cfg p w :
  String.eqb p "" = false ->
  try_except
    (let* there := if negb (String.eqb p "") then os_path_exists p else ret false in
     if there then os_remove cfg p else pass)
    (fun _ => pass) w
  = (Ok tt, if removable cfg w p then set_fs (delete p (fs w)) w else w).
Proof.
  intros Hp. rewrite Hp. unfold removable.
  destruct w as [s g dev f out cs]; monad_step.
  destruct (f !! p) eqn:Hf; cbn; rewrite ?Hf; cbn.
  - destruct (exclusive_locks cfg && _); reflexivity.
  - destruct (negb _); [rewrite delete_id by assumption|]; reflexivity.
Qed.

Lemma tracked_paths_nonempty s :
  Forall (fun p => String.eqb p "" = false) (tracked_paths s).
Proof.
  unfold tracked_paths, truthy.
  destruct (audio_file s) as [a|], (_raw_mp3 s) as [r|]; cbn;
    repeat match goal with |- context [String.eqb ?x ""] => destruct (String.eqb x "") eqn:? end;
    cbn; repeat constructor; assumption.
Qed.

Lemma cleanup_eq_gen cfg w :
  cleanup cfg w =
  (Ok tt, mkWorld TTSPlayer_init (pygame w) (audio_device w)
            (forget (List.filter (removable cfg w) (tracked_paths (self w))) (fs w))
            (stdout w) (calls w)).
Proof.
  unfold cleanup. unfold bind at 1. unfold get at 1.
  pose proof (tracked_paths_nonempty (self w)) as Hall.
  revert Hall. generalize (tracked_paths (self w)) as paths. intros paths.
  assert (Hgen : forall w0, pygame w0 = pygame w -> audio_device w0 = audio_device w ->
            stdout w0 = stdout w -> calls w0 = calls w ->
            Forall (fun p => String.eqb p "" = false) paths ->
            (for_each paths
               (fun p => try_except
                  (let* there := if negb (String.eqb p "") then os_path_exists p else ret false in
                   if there then os_remove cfg p else pass) (fun _ => pass)) >>
             set_audio_file None >> set_raw_mp3 None >> set_is_playing false >> set_paused false) w0
            = (Ok tt, mkWorld TTSPlayer_init (pygame w) (audio_device w)
                 (forget (List.filter (removable cfg w) paths) (fs w0))
                 (stdout w) (calls w))).
  { induction paths as [|p paths IH]; intros w0 Hg Hd Ho Hc Hall.
    - destruct w0 as [s g dev f out cs]. cbn in *. subst. reflexivity.
    - inversion Hall as [|? ? Hp Hrest]; subst.
      cbn [for_each]. unfold bind at 1. unfold bind at 1.
      rewrite (remove_if_there_gen cfg p w0 Hp).
      assert (Hrm : removable cfg w0 p = removable cfg w p).
      { unfold removable, held_open. rewrite Hg. reflexivity. }
      rewrite Hrm. cbn [List.filter].
      destruct (removable cfg w p) eqn:Hr.
      + specialize (IH (set_fs (delete p (fs w0)) w0)).
        unfold bind at 1 in IH. rewrite IH; try assumption; destruct w0; auto.
      + specialize (IH w0). unfold bind at 1 in IH. rewrite IH; auto. }
  intros Hall. apply Hgen; auto.
Qed.

Lemma forget_lookup_other paths (f : gmap string Content) p :
  p ∉ paths -> forget paths f !! p = f !! p.
Proof.
  revert f. induction paths as [|q paths IH]; intros f Hp; [reflexivity|].
  cbn. rewrite IH by (intros H; apply Hp; by right).
  apply lookup_delete_ne. intros ->. apply Hp. by left.
Qed.

Lemma cleanup_storage cfg w :
  (forall p, p ∈ tracked_paths (self w) -> removable cfg w p = true ->
     fs (snd (cleanup cfg w)) !! p = None) /\
  (forall p, p ∉ tracked_paths (self w) -> fs (snd (cleanup cfg w)) !! p = fs w !! p) /\
  (forall p, removable cfg w p = false -> fs (snd (cleanup cfg w)) !! p = fs w !! p).
Proof.
  rewrite (cleanup_eq_gen cfg w). cbn [snd fs]. repeat split.
  - intros p Hp Hr. apply forget_lookup_None.
    apply list_elem_of_In, filter_In. split; [by apply list_elem_of_In | exact Hr].
  - intros p Hp. apply forget_lookup_other.
    intros Hin. apply Hp. apply list_elem_of_In in Hin. apply filter_In in Hin as [Hin _].
    by apply list_elem_of_In.
  - intros p Hp. apply forget_lookup_other.
    intros Hin. apply list_elem_of_In, filter_In in Hin as [_ Hin]. congruence.
Qed.

(** X1.  [cleanup] never raises and leaves the player as [__init__] made it;
    a second [cleanup] changes nothing, and on a fresh player the first one
    changes nothing either.  Every tracked file whose removal goes through
    is gone afterwards, and a file that is not tracked is not touched. *)
Theorem cleanup_is_idempotent cfg w :
  let w1 := snd (cleanup cfg w) in
  fst (cleanup cfg w) = Ok tt /\
  self w1 = TTSPlayer_init /\
  cleanup cfg w1 = (Ok tt, w1) /\
  (self w = TTSPlayer_init -> w1 = w) /\
  (forall p, p ∈ tracked_paths (self w) -> removable cfg w p = true -> fs w1 !! p = None) /\
  (forall p, p ∉ tracked_paths (self w) -> fs w1 !! p = fs w !! p).
Proof.
  cbn zeta. rewrite (cleanup_eq_gen cfg w). cbn [fst snd self fs].
  split; [reflexivity|]. split; [reflexivity|].
  split; [rewrite cleanup_eq_gen; reflexivity|].
  split; [intros Hs; destruct w as [s g dev f out cs]; cbn in *; subst s; reflexivity|].
  destruct (cleanup_storage cfg w) as (Hgone & Hother & _).
  rewrite (cleanup_eq_gen cfg w) in Hgone, Hother. cbn [snd fs] in Hgone, Hother.
  split; assumption.
Qed.

(** X2.  [cleanup] does not stop or quit the mixer: the pygame state, the
    calls made to it and whether something sounds are as before.  Nothing is
    tracked afterwards, also when a removal failed: a file the device keeps
    locked stays on disk, no longer known to the player. *)
Theorem cleanup_leaves_device_alone cfg w :
  let w1 := snd (cleanup cfg w) in
  pygame w1 = pygame w /\ calls w1 = calls w /\ busy w1 = busy w /\
  tracked_paths (self w1) = [] /\
  (forall p, removable cfg w p = false -> fs w1 !! p = fs w !! p).
Proof.
  cbn zeta. destruct (cleanup_storage cfg w) as (_ & _ & Hkeep). revert Hkeep.
  rewrite (cleanup_eq_gen cfg w). cbn [fst snd self fs pygame calls].
  intros Hkeep. repeat split. exact Hkeep.
Qed.

Lemma cleanup_leaves_device_alone_witness :
  removable all_installed playing_world "tts_c.wav" = false /\
  busy (snd (cleanup all_installed playing_world)) = true /\
  tracked_paths (self (snd (cleanup all_installed playing_world))) = [] /\
  fs (snd (cleanup all_installed playing_world)) !! "tts_c.wav" = Some Wav.
Proof.
  assert (Hr : removable all_installed playing_world "tts_c.wav" = false)
    by (vm_compute; reflexivity).
  destruct (cleanup_leaves_device_alone all_installed playing_world)
    as (_ & _ & Hb & Ht & Hkeep).
  split; [exact Hr|]. split; [rewrite Hb; vm_compute; reflexivity|].
  split; [exact Ht|]. rewrite (Hkeep _ Hr). vm_compute. reflexivity.
Defined.

Lemma cleanup_is_idempotent_witness :
  "tts_c.wav" ∈ tracked_paths (self playing_world) /\
  removable all_installed_posix playing_world "tts_c.wav" = true /\
  fs (snd (cleanup all_installed_posix playing_world)) !! "tts_c.wav" = None.
Proof.
  assert (Hin : "tts_c.wav" ∈ tracked_paths (self playing_world))
    by (vm_compute; constructor).
  destruct (cleanup_is_idempotent all_installed_posix playing_world) as (_ & _ & _ & _ & Hgone & _).
  split; [exact Hin|]. split; [|apply Hgone; [exact Hin|]].
  all: vm_compute; reflexivity.
Defined.

(** X3.  When [ensure_pygame] returns, the mixer is initialised and calling
    it again changes nothing.  When it raises, the error is a RuntimeError,
    nothing has changed and the mixer is not initialised.  In both cases the
    player's attributes, the files and the music are untouched. *)
Theorem ensure_pygame_is_idempotent w :
  let w1 := snd (ensure_pygame w) in
  (fst (ensure_pygame w) = Ok tt ->
     quiet w1 = false /\ ensure_pygame w1 = (Ok tt, w1)) /\
  (forall e, fst (ensure_pygame w) = Raise e ->
     w1 = w /\ quiet w = true /\ exists msg, e = RuntimeError msg) /\
  self w1 = self w /\ fs w1 = fs w /\ music_of w1 = music_of w.
Proof.
  cbn zeta. rewrite !ensure_pygame_eq.
  destruct w as [s [[|m]|] [|] f out cs]; cbn; repeat split; intros;
    try discriminate; try reflexivity.
  all: match goal with H : Raise _ = Raise _ |- _ => inversion H; subst; eauto end.
Qed.

Lemma ensure_pygame_is_idempotent_witness :
  fst (ensure_pygame new_world) = Ok tt /\
  fst (ensure_pygame (snd (ensure_pygame new_world))) = Ok tt /\
  calls (snd (ensure_pygame (snd (ensure_pygame new_world)))) = [c_init].
Proof.
  assert (H : fst (ensure_pygame new_world) = Ok tt) by reflexivity.
  destruct (ensure_pygame_is_idempotent new_world) as (Hok & _).
  destruct (Hok H) as (_ & ->).
  split; [exact H|]. split; reflexivity.
Defined.

(** X4.  When the mixer can be had and [audio_file] names a file that is
    there and holds audio, [play] returns: it stops the music, loads that
    file and plays it, in this order, sets [is_playing], clears [paused] and
    changes neither the two paths nor the files. *)
Theorem play_starts_playback w w1 p c :
  ensure_pygame w = (Ok tt, w1) ->
  audio_file (self w) = Some p -> p <> "" ->
  fs w !! p = Some c -> c <> Empty ->
  let w2 := snd (play w) in
  fst (play w) = Ok tt /\
  is_playing (self w2) = true /\ paused (self w2) = false /\
  audio_file (self w2) = Some p /\ _raw_mp3 (self w2) = _raw_mp3 (self w) /\
  pygame w2 = Some (MixerOn (mkMusic (Some p) Sounding)) /\
  calls w2 = c_play :: c_load p :: c_stop :: calls w1 /\
  fs w2 = fs w.
Proof.
  intros He Haf Hp Hf Hc. cbn zeta.
  apply String.eqb_neq in Hp.
  rewrite (play_ok w w1 p c He Haf Hp Hf Hc). cbn. repeat split.
Qed.

Lemma play_starts_playback_witness :
  let w := snd (generate all_installed "Hello" "en" smooth new_world) in
  ensure_pygame w = (Ok tt, snd (ensure_pygame w)) /\
  audio_file (self w) = Some "tts_c.wav" /\ "tts_c.wav" <> "" /\
  fs w !! "tts_c.wav" = Some Wav /\ Wav <> Empty /\
  calls (snd (play w)) = [c_play; c_load "tts_c.wav"; c_stop; c_init].
Proof.
  cbn zeta.
  set (w := snd (generate all_installed "Hello" "en" smooth new_world)).
  assert (He : ensure_pygame w = (Ok tt, snd (ensure_pygame w))) by (vm_compute; reflexivity).
  assert (Haf : audio_file (self w) = Some "tts_c.wav") by (vm_compute; reflexivity).
  assert (Hp : "tts_c.wav" <> "") by discriminate.
  assert (Hf : fs w !! "tts_c.wav" = Some Wav) by (vm_compute; reflexivity).
  assert (Hc : Wav <> Empty) by discriminate.
  destruct (play_starts_playback w _ _ _ He Haf Hp Hf Hc) as (_ & _ & _ & _ & _ & _ & Hcalls & _).
  repeat (split; [assumption|]). rewrite Hcalls. vm_compute. reflexivity.
Defined.

(** X5.  When [play] raises, it raises a RuntimeError and has changed no
    attribute of the player and no file, and it has loaded nothing. *)
Theorem play_failure_changes_no_attribute w e w' :
  play w = (Raise e, w') ->
  (exists msg, e = RuntimeError msg) /\ self w' = self w /\ fs w' = fs w /\
  loaded_files (calls w') = loaded_files (calls w).
Proof.
  world_cases w; method_cases; intros H; inversion H; subst; cbn; eauto.
Qed.

Lemma play_failure_changes_no_attribute_witness :
  let w := run all_installed_posix [a_file_lost "tts_c.wav"] playing_world in
  play w = (Raise (RuntimeError "No audio file to play. Generate it first."), snd (play w)) /\
  is_playing (self (snd (play w))) = true.
Proof.
  cbn zeta.
  set (w := run all_installed_posix [a_file_lost "tts_c.wav"] playing_world).
  assert (H : play w = (Raise (RuntimeError "No audio file to play. Generate it first."),
                        snd (play w))) by (vm_compute; reflexivity).
  split; [exact H|].
  destruct (play_failure_changes_no_attribute _ _ _ H) as (_ & -> & _).
  vm_compute. reflexivity.
Defined.

(** X6.  [replay] either returns, having loaded and started [audio_file]
    with [is_playing] set and [paused] cleared, or it prints
    [Replay error: ...], raises the error again and leaves the attributes as
    they were, with nothing sounding and nothing loaded.  Without an audio
    file it always raises.  It never touches a file. *)
Theorem replay_reloads_or_reraises w :
  let w' := snd (replay w) in
  (fst (replay w) = Ok tt ->
     exists p, audio_file (self w) = Some p /\
       is_playing (self w') = true /\ paused (self w') = false /\
       pygame w' = Some (MixerOn (mkMusic (Some p) Sounding)) /\
       loaded_files (calls w') = p :: loaded_files (calls w)) /\
  (forall e, fst (replay w) = Raise e ->
     self w' = self w /\ busy w' = false /\
     stdout w' = ("Replay error: " +:+ str e) :: stdout w /\
     loaded_files (calls w') = loaded_files (calls w)) /\
  (audio_file (self w) = None -> exists e, fst (replay w) = Raise e) /\
  fs w' = fs w.
Proof.
  world_cases w; method_cases; cbn; repeat split; intros; try discriminate; eauto.
  all: try match goal with H : Raise _ = Raise _ |- _ => inversion H; subst; reflexivity end.
  all: eexists; repeat split; reflexivity.
Qed.

Lemma replay_reloads_or_reraises_witness :
  fst (replay playing_world) = Ok tt /\
  loaded_files (calls (snd (replay playing_world))) = ["tts_c.wav"; "tts_c.wav"] /\
  audio_file (self new_world) = None /\
  exists e, fst (replay new_world) = Raise e.
Proof.
  assert (H : fst (replay playing_world) = Ok tt) by (vm_compute; reflexivity).
  destruct (replay_reloads_or_reraises playing_world) as (Hok & _).
  destruct (Hok H) as (p & Hp & _ & _ & _ & Hl).
  assert (p = "tts_c.wav") as -> by (vm_compute in Hp; congruence).
  split; [exact H|]. split; [rewrite Hl; vm_compute; reflexivity|].
  split; [reflexivity|].
  destruct (replay_reloads_or_reraises new_world) as (_ & _ & Hnone & _).
  exact (Hnone eq_refl).
Defined.

(** ** What [generate] produces *)

Lemma temp_name_not_empty prefix r suffix :
  prefix <> "" -> temp_name prefix r suffix <> "".
Proof. destruct prefix; [congruence|]. intros _. discriminate. Qed.

(** every successful generate returns the tracked file, which holds audio *)
Lemma generate_success_shape cfg text lang o w r :
  fst (generate cfg text lang o w) = Ok r ->
  let w' := snd (generate cfg text lang o w) in
  exists p, r = Some p /\ p <> "" /\
    audio_file (self w') = Some p /\
    (fs w' !! p = Some Wav \/ fs w' !! p = Some Mp3) /\
    fs (cleaned cfg w) !! p = None.
Proof.
  intros Hr w'.
  destruct (generate_by_route cfg text lang o w) as (Hout & _).
  fold w' in Hout. rewrite Hr in Hout.
  destruct (route cfg text lang o w); cbn in Hout.
  - destruct Hout as (_ & x & _ & Hr' & Hfresh & -> & ->). inversion Hr'; subst.
    eexists. split; [reflexivity|]. split; [by apply temp_name_not_empty|].
    split; [reflexivity|]. split; [|exact Hfresh].
    left. apply lookup_insert_eq.
  - destruct Hout as (_ & Hr' & _). discriminate Hr'.
  - destruct Hout as (_ & (msg & Hr') & _). discriminate Hr'.
  - destruct Hout as (_ & _ & m & x & _ & _ & Hr' & Hm & Hx & Hne & -> & ->).
    inversion Hr'; subst.
    eexists. split; [reflexivity|]. split; [by apply temp_name_not_empty|].
    split; [reflexivity|]. split; [|exact Hx].
    left. rewrite lookup_delete_ne by exact Hne. apply lookup_insert_eq.
  - destruct Hout as (_ & _ & m & _ & Hr' & Hm & -> & ->). inversion Hr'; subst.
    eexists. split; [reflexivity|]. split; [by apply temp_name_not_empty|].
    split; [reflexivity|]. split; [|exact Hm].
    right. apply lookup_insert_eq.
  - destruct Hout as (_ & _ & m & _ & Hr' & Hm & -> & Hfs). inversion Hr'; subst.
    eexists. split; [reflexivity|]. split; [by apply temp_name_not_empty|].
    split; [reflexivity|]. split; [|exact Hm].
    right. destruct Hfs as [-> | (x & _ & Hx & ->)]; [apply lookup_insert_eq|].
    apply lookup_insert_None in Hx as [_ Hne].
    rewrite lookup_insert_ne by congruence. apply lookup_insert_eq.
Qed.

(** X7.  When [generate] returns, it returns a non-empty path, the one kept
    in [audio_file]; the file is there and holds WAV or MP3 audio; it was not
    there after the clean-up [generate] starts with; both flags are clear and
    the mixer is not initialised. *)
Theorem generate_returns_the_tracked_file cfg text lang o w r :
  fst (generate cfg text lang o w) = Ok r ->
  let w' := snd (generate cfg text lang o w) in
  exists p, r = Some p /\ p <> "" /\
    audio_file (self w') = Some p /\
    (fs w' !! p = Some Wav \/ fs w' !! p = Some Mp3) /\
    fs (cleaned cfg w) !! p = None /\
    is_playing (self w') = false /\ paused (self w') = false /\ quiet w' = true.
Proof.
  intros Hr w'.
  destruct (generate_success_shape cfg text lang o w r Hr) as (p & H).
  destruct (generate_flags cfg text lang o w) as (Hp & Hq & Hm).
  exists p. fold w' in H, Hp, Hq, Hm. intuition.
Qed.

(** X8.  After a [generate] that returned a path, [play] returns whenever
    the mixer can be initialised, and the mixer then plays that path. *)
Theorem generate_then_play cfg text lang o w p w1 :
  fst (generate cfg text lang o w) = Ok (Some p) ->
  ensure_pygame (snd (generate cfg text lang o w)) = (Ok tt, w1) ->
  let w2 := snd (play (snd (generate cfg text lang o w))) in
  fst (play (snd (generate cfg text lang o w))) = Ok tt /\
  is_playing (self w2) = true /\ paused (self w2) = false /\
  busy w2 = true /\
  pygame w2 = Some (MixerOn (mkMusic (Some p) Sounding)).
Proof.
  intros Hr He. cbn zeta.
  destruct (generate_success_shape cfg text lang o w _ Hr) as (p' & Hp' & Hne & Haf & Hfs & _).
  injection Hp' as <-.
  apply String.eqb_neq in Hne.
  destruct Hfs as [Hfs|Hfs];
    rewrite (play_ok _ w1 p _ He Haf Hne Hfs) by discriminate; cbn; repeat split.
Qed.

(** X9.  [generate] raises nothing but a RuntimeError: [gTTS not available
    ...] exactly when gTTS is not installed, and [gTTS generation failed: ...]
    when it is.  After either the player is as [__init__] made it and the
    mixer is not initialised. *)
Theorem generate_raises_only_two_errors cfg text lang o w e :
  fst (generate cfg text lang o w) = Raise e ->
  let w' := snd (generate cfg text lang o w) in
  ((gTTS cfg = false /\
    e = RuntimeError "gTTS not available. Install gTTS (pip install gTTS).") \/
   (gTTS cfg = true /\
    exists msg, e = RuntimeError ("gTTS generation failed: " +:+ msg))) /\
  self w' = TTSPlayer_init /\ quiet w' = true.
Proof.
  intros He w'.
  destruct (generate_by_route cfg text lang o w) as (Hout & _).
  destruct (generate_flags cfg text lang o w) as (_ & _ & Hq).
  fold w' in Hout, Hq. rewrite He in Hout.
  destruct (route cfg text lang o w); cbn in Hout.
  - destruct Hout as (_ & x & _ & Hr & _). discriminate Hr.
  - destruct Hout as (Hg & Hr & Hs & _). inversion Hr; subst. auto.
  - destruct Hout as (Hg & (msg & Hr) & Hs & _). inversion Hr; subst. eauto 6.
  - destruct Hout as (_ & _ & m & x & _ & _ & Hr & _). discriminate Hr.
  - destruct Hout as (_ & _ & m & _ & Hr & _). discriminate Hr.
  - destruct Hout as (_ & _ & m & _ & Hr & _). discriminate Hr.
Qed.

Lemma generate_returns_the_tracked_file_witness :
  fst (generate all_installed "Hola" "es" smooth_again playing_world) = Ok (Some "tts_f.wav") /\
  audio_file (self (snd (generate all_installed "Hola" "es" smooth_again playing_world)))
  = Some "tts_f.wav" /\
  quiet (snd (generate all_installed "Hola" "es" smooth_again playing_world)) = true.
Proof.
  assert (H : fst (generate all_installed "Hola" "es" smooth_again playing_world)
              = Ok (Some "tts_f.wav")) by (vm_compute; reflexivity).
  destruct (generate_returns_the_tracked_file _ _ _ _ _ _ H)
    as (p & Hp & _ & Haf & _ & _ & _ & _ & Hq).
  injection Hp as <-. auto.
Defined.

Lemma generate_then_play_witness :
  let w' := snd (generate all_installed "Hola" "es" smooth_again playing_world) in
  fst (generate all_installed "Hola" "es" smooth_again playing_world) = Ok (Some "tts_f.wav") /\
  ensure_pygame w' = (Ok tt, snd (ensure_pygame w')) /\
  busy (snd (play w')) = true.
Proof.
  cbn zeta.
  assert (H : fst (generate all_installed "Hola" "es" smooth_again playing_world)
              = Ok (Some "tts_f.wav")) by (vm_compute; reflexivity).
  assert (He : ensure_pygame (snd (generate all_installed "Hola" "es" smooth_again playing_world))
               = (Ok tt, snd (ensure_pygame
                    (snd (generate all_installed "Hola" "es" smooth_again playing_world)))))
    by (vm_compute; reflexivity).
  destruct (generate_then_play _ _ _ _ _ _ _ H He) as (_ & _ & _ & Hb & _).
  auto.
Defined.

Lemma generate_raises_only_two_errors_witness :
  fst (generate all_installed "Hola" "es" network_down playing_world)
  = Raise (RuntimeError "gTTS generation failed: network unreachable") /\
  self (snd (generate all_installed "Hola" "es" network_down playing_world)) = TTSPlayer_init.
Proof.
  assert (H : fst (generate all_installed "Hola" "es" network_down playing_world)
              = Raise (RuntimeError "gTTS generation failed: network unreachable"))
    by (vm_compute; reflexivity).
  destruct (generate_raises_only_two_errors _ _ _ _ _ _ H) as (_ & Hs & _).
  auto.
Defined.

(** X10.  With gTTS installed [generate] never takes the pyttsx3 route: it
    does what it would do were pyttsx3 missing.  Without gTTS, when the
    pyttsx3 route is not taken either (pyttsx3 missing, or a language that
    does not start with [en]), [generate] cleans up and raises [gTTS not
    available ...]. *)
Theorem pyttsx3_is_used_only_without_gTTS cfg text lang o w :
  (gTTS cfg = true ->
     generate cfg text lang o w
     = generate (mkConfig false true (AudioSegment cfg) (exclusive_locks cfg)) text lang o w /\
     route cfg text lang o w <> via_offline) /\
  (gTTS cfg = false -> offline_wanted cfg lang = false ->
     generate cfg text lang o w
     = (Raise (RuntimeError "gTTS not available. Install gTTS (pip install gTTS)."),
        cleaned cfg w)).
Proof.
  split.
  - intros Hg. split.
    + destruct cfg as [p g a x]. cbn in Hg. subst g. cbn [AudioSegment exclusive_locks].
      unfold generate, produce_audio, offline_route. cbn [pyttsx3 gTTS negb].
      rewrite !andb_false_r. reflexivity.
    + destruct (generate_by_route cfg text lang o w) as (Hout & _).
      intros Hr. rewrite Hr in Hout. destruct Hout as (Hg' & _). congruence.
  - intros Hg Hoff. rewrite generate_eq. unfold produce_audio, bind.
    rewrite offline_route_skipped by assumption. rewrite Hg. reflexivity.
Qed.

Lemma pyttsx3_is_used_only_without_gTTS_witness :
  gTTS all_installed = true /\
  route all_installed "Hello" "en" smooth new_world = via_wav /\
  gTTS offline_only = false /\ offline_wanted offline_only "es" = false /\
  fst (generate offline_only "Hola" "es" smooth new_world)
  = Raise (RuntimeError "gTTS not available. Install gTTS (pip install gTTS).").
Proof.
  destruct (pyttsx3_is_used_only_without_gTTS offline_only "Hola" "es" smooth new_world)
    as (_ & H).
  rewrite (H eq_refl eq_refl).
  destruct (pyttsx3_is_used_only_without_gTTS all_installed "Hello" "en" smooth new_world)
    as (H' & _).
  destruct (H' eq_refl) as (_ & Hne).
  repeat split; vm_compute; reflexivity.
Defined.

Lemma length_append (a b : string) :
  String.length (a +:+ b) = String.length a + String.length b.
Proof.
  induction a as [|c a IH]; [reflexivity|].
  change (String c a +:+ b) with (String c (a +:+ b)). cbn [String.length].
  rewrite IH. reflexivity.
Qed.

Lemma same_length_suffix (a b s t : string) :
  String.length s = String.length t -> a +:+ s = b +:+ t -> s = t.
Proof.
  revert b. induction a as [|c a IH]; intros b Hlen H.
  - destruct b as [|d b]; [exact H|]. exfalso.
    apply (f_equal String.length) in H. rewrite !length_append in H.
    cbn [String.length] in H. lia.
  - destruct b as [|d b].
    + exfalso. apply (f_equal String.length) in H. rewrite !length_append in H.
      cbn [String.length] in H. lia.
    + change (String c (a +:+ s) = String d (b +:+ t)) in H.
      injection H as _ H. exact (IH b Hlen H).
Qed.

Lemma mp3_is_not_wav m x : temp_name "tts_" m ".mp3" <> temp_name "tts_" x ".wav".
Proof.
  unfold temp_name. intros H.
  apply (inj (String.app "tts_")) in H.
  apply same_length_suffix in H; [discriminate H | reflexivity].
Qed.

(** X11.  When gTTS has written the MP3 and the conversion to WAV fails, in
    the decoding or in the export, [generate] returns the MP3 path and keeps
    it under both attributes; the temporary WAV file made for the conversion
    stays on disk and is not tracked, so that no later [cleanup] removes
    it. *)
Theorem failed_conversion_leaves_wav_behind cfg text lang o w m x :
  gTTS cfg = true -> AudioSegment cfg = true ->
  tmp_mp3 o = Some m -> fs (cleaned cfg w) !! temp_name "tts_" m ".mp3" = None ->
  network_tts o = Succeeds ->
  tmp_wav o = Some x -> fs (cleaned cfg w) !! temp_name "tts_" x ".wav" = None ->
  (decode o <> Succeeds \/ export o <> Succeeds) ->
  let w' := snd (generate cfg text lang o w) in
  let mp3 := temp_name "tts_" m ".mp3" in
  let wav := temp_name "tts_" x ".wav" in
  fst (generate cfg text lang o w) = Ok (Some mp3) /\
  tracked_paths (self w') = [mp3; mp3] /\
  fs w' !! mp3 = Some Mp3 /\
  fs w' !! wav = Some Empty /\
  wav ∉ tracked_paths (self w').
Proof.
  intros Hg Ha Hm Hfm Hnet Hx Hfx Hfail. cbn zeta.
  pose proof (mp3_is_not_wav m x) as Hne.
  rewrite generate_eq.
  pose proof (quiet_cleaned cfg w) as Hq.
  assert (Hs : self (cleaned cfg w) = TTSPlayer_init) by (rewrite cleaned_eq; reflexivity).
  revert Hfm Hfx Hq Hs. generalize (cleaned cfg w) as w1. intros w1 Hfm Hfx Hq Hs.
  destruct (produce_audio cfg text lang o w1) as [r w'] eqn:Hgen. cbn [fst snd].
  revert Hgen.
  unfold produce_audio. unfold bind at 1.
  rewrite offline_route_skipped by (by apply offline_wanted_gTTS).
  rewrite Hg. cbn [negb]. unfold bind at 1.
  rewrite synthesize_mp3_eq by assumption. cbn zeta. rewrite Hm, Hfm, Hnet, Ha.
  cbv beta iota. unfold bind at 1. unfold try_except at 1. unfold bind at 1.
  match goal with
  | |- context [convert_to_wav cfg o ?w2] =>
      pose proof (convert_to_wav_eq cfg o w2 _ Mp3 Hq eq_refl (lookup_insert_eq _ _ _)) as Hconv
  end.
  rewrite Hconv. clear Hconv. cbn [fs self]. cbn zeta. rewrite Hx.
  rewrite lookup_insert_ne, Hfx by exact Hne.
  destruct w1 as [s1 g1 dev1 f1 out1 cs1]. cbn in Hs. subst s1.
  destruct (decode o), (export o); try (exfalso; destruct Hfail; congruence); cbn.
  all: intros Hgen; inversion Hgen; subst; clear Hgen; cbn.
  all: repeat split; auto.
  all: try (rewrite lookup_insert_ne by congruence; apply lookup_insert_eq).
  all: try apply lookup_insert_eq.
  all: intros Hin; apply list_elem_of_In in Hin.
  all: change (In (temp_name "tts_" x ".wav")
                 [temp_name "tts_" m ".mp3"; temp_name "tts_" m ".mp3"]) in Hin.
  all: cbn in Hin; intuition congruence.
Qed.

Lemma failed_conversion_leaves_wav_behind_witness :
  gTTS all_installed = true /\ AudioSegment all_installed = true /\
  tmp_mp3 no_ffmpeg = Some "b" /\
  fs (cleaned all_installed new_world) !! temp_name "tts_" "b" ".mp3" = None /\
  network_tts no_ffmpeg = Succeeds /\
  tmp_wav no_ffmpeg = Some "c" /\
  fs (cleaned all_installed new_world) !! temp_name "tts_" "c" ".wav" = None /\
  (decode no_ffmpeg <> Succeeds \/ export no_ffmpeg <> Succeeds) /\
  fst (generate all_installed "Hola" "es" no_ffmpeg new_world) = Ok (Some "tts_b.mp3") /\
  fs (snd (generate all_installed "Hola" "es" no_ffmpeg new_world)) !! "tts_c.wav"
  = Some Empty.
Proof.
  assert (H1 : fs (cleaned all_installed new_world) !! temp_name "tts_" "b" ".mp3" = None)
    by (vm_compute; reflexivity).
  assert (H2 : fs (cleaned all_installed new_world) !! temp_name "tts_" "c" ".wav" = None)
    by (vm_compute; reflexivity).
  assert (H3 : decode no_ffmpeg <> Succeeds \/ export no_ffmpeg <> Succeeds)
    by (left; discriminate).
  destruct (failed_conversion_leaves_wav_behind all_installed "Hola" "es" no_ffmpeg
              new_world "b" "c" eq_refl eq_refl eq_refl H1 eq_refl eq_refl H2 H3)
    as (Hr & _ & _ & Hw & _).
  repeat (split; [first [reflexivity | assumption]|]). exact Hw.
Defined.

(** ** The transport buttons *)

Ltac window_cases g :=
  let w := fresh "w" in
  destruct g as [w ?pb ?ab ?rb ?pt ?st ?na ?tl ?dk ?dl ?ds]; world_cases w.

Ltac handler_cases :=
  unfold on_play, on_pause, on_replay, _start_playback_ui, on_close,
         _enable_playback_buttons, _set_playback_buttons_state, pause_btn_config_text,
         _set_status, messagebox, destroy, in_world;
  method_cases.

(** X12.  While music sounds and the player is not paused, the Pause button
    pauses (button text [Resume], status [Paused]) and a second press resumes
    (button text [Pause], status [Playing]): the music is where it was, no
    file was loaded again and no dialog was shown. *)
Theorem on_pause_toggles g :
  busy (world g) = true -> paused (self (world g)) = false ->
  let g1 := snd (on_pause g) in
  let g2 := snd (on_pause g1) in
  fst (on_pause g) = Ok tt /\ fst (on_pause g1) = Ok tt /\
  (paused (self (world g1)) = true /\ is_playing (self (world g1)) = false /\
   busy (world g1) = false /\
   pause_btn_text g1 = "Resume" /\ status_lbl g1 = "Paused") /\
  (paused (self (world g2)) = false /\ is_playing (self (world g2)) = true /\
   busy (world g2) = true /\
   pause_btn_text g2 = "Pause" /\ status_lbl g2 = "Playing") /\
  music_of (world g2) = music_of (world g) /\
  loaded_files (calls (world g2)) = loaded_files (calls (world g)) /\
  dialogs g2 = dialogs g.
Proof.
  window_cases g; cbn; intros Hb Hp; try discriminate; handler_cases; cbn; repeat split.
Qed.

Lemma on_pause_toggles_witness :
  busy (world playing_window) = true /\
  paused (self (world playing_window)) = false /\
  pause_btn_text (snd (on_pause playing_window)) = "Resume" /\
  is_playing (self (world (snd (on_pause (snd (on_pause playing_window)))))) = true.
Proof.
  assert (Hb : busy (world playing_window) = true) by (vm_compute; reflexivity).
  assert (Hp : paused (self (world playing_window)) = false) by (vm_compute; reflexivity).
  destruct (on_pause_toggles playing_window Hb Hp)
    as (_ & _ & (_ & _ & _ & Ht & _) & (_ & Hpl & _) & _).
  auto.
Defined.

(** X13.  [on_play] never raises.  On a paused player with the mixer
    initialised it resumes, without loading anything; while music sounds and
    the player is not paused it does nothing; otherwise, when the mixer can
    be had, it does what [play] does, and shows [Play Error] with the message
    when [play] raises, leaving the status as it was. *)
Theorem on_play_resumes_or_restarts g :
  let g' := snd (on_play g) in
  fst (on_play g) = Ok tt /\
  (paused (self (world g)) = true -> quiet (world g) = false ->
     paused (self (world g')) = false /\ is_playing (self (world g')) = true /\
     status_lbl g' = "Playing" /\ pause_btn_text g' = pause_btn_text g /\
     loaded_files (calls (world g')) = loaded_files (calls (world g)) /\
     dialogs g' = dialogs g) /\
  (paused (self (world g)) = false -> busy (world g) = true -> g' = g) /\
  (paused (self (world g)) = false -> busy (world g) = false ->
     forall w1, ensure_pygame (world g) = (Ok tt, w1) ->
     world g' = snd (play (world g)) /\
     (fst (play (world g)) = Ok tt -> status_lbl g' = "Playing" /\ dialogs g' = dialogs g) /\
     (forall e, fst (play (world g)) = Raise e ->
        status_lbl g' = status_lbl g /\
        dialogs g' = showerror "Play Error" (str e) :: dialogs g)).
Proof.
  window_cases g; cbn; handler_cases; cbn; repeat split; intros; try discriminate; auto.
  all: try match goal with H : _ = (Ok tt, _) |- _ => inversion H; subst; clear H end.
  all: try match goal with H : Raise _ = Raise _ |- _ => inversion H; subst; clear H end.
  all: try reflexivity.
Qed.

Lemma on_play_resumes_or_restarts_witness :
  let g := snd (on_pause playing_window) in
  paused (self (world g)) = true /\ quiet (world g) = false /\
  is_playing (self (world (snd (on_play g)))) = true /\
  pause_btn_text (snd (on_play g)) = "Resume".
Proof.
  cbn zeta. set (g := snd (on_pause playing_window)).
  assert (Hp : paused (self (world g)) = true) by (vm_compute; reflexivity).
  assert (Hq : quiet (world g) = false) by (vm_compute; reflexivity).
  destruct (on_play_resumes_or_restarts g) as (_ & Hres & _).
  destruct (Hres Hp Hq) as (_ & Hpl & _ & Ht & _).
  split; [exact Hp|]. split; [exact Hq|]. split; [exact Hpl|].
  rewrite Ht. vm_compute. reflexivity.
Defined.

(** X14.  After a [generate] that returned a path, [_start_playback_ui]
    never raises.  When the mixer can be initialised it plays that path,
    enables the three buttons, sets the button text to [Pause] and the status
    to [Playing], and shows no dialog; when it cannot, it shows [Playback
    Error] with the message and disables the three buttons. *)
Theorem start_playback_after_generate cfg text lang o g p :
  fst (generate cfg text lang o (world g)) = Ok (Some p) ->
  let g1 := set_world (snd (generate cfg text lang o (world g))) g in
  let g2 := snd (_start_playback_ui g1) in
  fst (_start_playback_ui g1) = Ok tt /\
  (forall w1, ensure_pygame (world g1) = (Ok tt, w1) ->
     play_btn g2 = normal /\ pause_btn g2 = normal /\ replay_btn g2 = normal /\
     pause_btn_text g2 = "Pause" /\ status_lbl g2 = "Playing" /\
     dialogs g2 = dialogs g /\
     is_playing (self (world g2)) = true /\
     pygame (world g2) = Some (MixerOn (mkMusic (Some p) Sounding))) /\
  (forall e, fst (ensure_pygame (world g1)) = Raise e ->
     play_btn g2 = disabled /\ pause_btn g2 = disabled /\ replay_btn g2 = disabled /\
     dialogs g2 = showerror "Playback Error" (str e) :: dialogs g /\
     status_lbl g2 = status_lbl g /\
     is_playing (self (world g2)) = false).
Proof.
  intros Hr g1 g2.
  destruct (generate_success_shape cfg text lang o (world g) _ Hr)
    as (p' & Hp' & Hne & Haf & Hfs & _).
  injection Hp' as <-. apply String.eqb_neq in Hne.
  destruct (generate_flags cfg text lang o (world g)) as (Hip & _ & _).
  subst g2 g1. destruct g as [w pb ab rb pt st na tl dk dl ds]. cbn [world set_world] in *.
  set (w' := snd (generate cfg text lang o w)) in *.
  unfold _start_playback_ui, try_except, bind, in_world, _enable_playback_buttons,
    _set_playback_buttons_state, pause_btn_config_text, _set_status, messagebox, modify, bind.
  cbn [world set_world].
  destruct (ensure_pygame w') as [[[]|e] w1] eqn:He.
  - assert (Hplay : play w' = (Ok tt, snd (play w')) /\
                    is_playing (self (snd (play w'))) = true /\
                    pygame (snd (play w')) = Some (MixerOn (mkMusic (Some p) Sounding))).
    { destruct Hfs as [Hfs|Hfs];
        rewrite (play_ok _ w1 p _ He Haf Hne Hfs) by discriminate; cbn; auto. }
    destruct Hplay as (Hplay & Hpl & Hmx). rewrite Hplay. cbn.
    split; [reflexivity|]. split; [|intros e H; discriminate H].
    intros _ _. repeat split; assumption.
  - assert (Hplay : play w' = (Raise e, w1)).
    { unfold play. unfold bind at 1. rewrite He. reflexivity. }
    assert (Hw1 : w1 = w').
    { rewrite ensure_pygame_eq in He.
      destruct (pygame w') as [[|?]|]; [destruct (audio_device w')| |]; inversion He; reflexivity. }
    subst w1. rewrite Hplay. cbn.
    split; [reflexivity|]. split; [intros w1 H; discriminate H|].
    intros e' H. inversion H; subst e'. repeat split. exact Hip.
Qed.

(** X15.  [on_replay] never raises and does to the player what [replay]
    does.  When [replay] returns, the three buttons are enabled, the button
    text is [Pause] and the status [Playing]; when it raises, a [Replay
    Error] dialog shows the message and no button, text or status
    changes. *)
Theorem on_replay_reports_failure g :
  let g' := snd (on_replay g) in
  fst (on_replay g) = Ok tt /\
  world g' = snd (replay (world g)) /\
  (fst (replay (world g)) = Ok tt ->
     play_btn g' = normal /\ pause_btn g' = normal /\ replay_btn g' = normal /\
     pause_btn_text g' = "Pause" /\ status_lbl g' = "Playing" /\
     dialogs g' = dialogs g) /\
  (forall e, fst (replay (world g)) = Raise e ->
     play_btn g' = play_btn g /\ pause_btn g' = pause_btn g /\
     replay_btn g' = replay_btn g /\
     pause_btn_text g' = pause_btn_text g /\ status_lbl g' = status_lbl g /\
     dialogs g' = showerror "Replay Error" (str e) :: dialogs g).
Proof.
  cbn zeta.
  destruct g as [w pb ab rb pt st na tl dk dl ds]. cbn [world] in *.
  unfold on_replay, try_except, bind, in_world, _enable_playback_buttons,
    _set_playback_buttons_state, pause_btn_config_text, _set_status, messagebox, modify, bind.
  cbn [world set_world].
  destruct (replay w) as [[[]|e] w'] eqn:Hrep; cbn in *.
  - repeat split; intros; try discriminate; reflexivity.
  - repeat split; intros; try discriminate; auto.
    all: match goal with H : Raise _ = Raise _ |- _ => inversion H; subst; reflexivity end.
Qed.

(** X16.  [on_close] never raises and always destroys the window.  The
    player is left as [__init__] made it and the mixer is not initialised.
    The clean-up runs before the mixer is quit: a tracked file is removed
    when its removal goes through, and a file the device still keeps locked
    at that moment stays on disk. *)
Theorem on_close_cleans_before_quitting cfg g :
  let g' := snd (on_close cfg g) in
  fst (on_close cfg g) = Ok tt /\
  destroyed g' = true /\
  self (world g') = TTSPlayer_init /\
  quiet (world g') = true /\
  (forall p, p ∈ tracked_paths (self (world g)) -> removable cfg (world g) p = true ->
     fs (world g') !! p = None) /\
  (forall p, removable cfg (world g) p = false ->
     fs (world g') !! p = fs (world g) !! p).
Proof.
  cbn zeta.
  destruct (cleanup_storage cfg (world g)) as (Hgone & _ & Hkeep).
  revert Hgone Hkeep.
  destruct g as [w pb ab rb pt st na tl dk dl ds]. cbn [world].
  unfold on_close, try_except, bind, in_world, destroy, modify, PYGAME_AVAILABLE, get,
    mixer_quit, pass, ret.
  cbn [world set_world].
  rewrite (cleanup_eq_gen cfg w). cbn [fst snd self fs pygame world set_world].
  intros Hgone Hkeep.
  destruct (pygame w) as [[|m]|] eqn:Hg; cbn; repeat split; auto.
Qed.

Lemma start_playback_after_generate_witness :
  let g1 := set_world (snd (generate all_installed "Hello" "en" smooth (world new_window)))
                      new_window in
  fst (generate all_installed "Hello" "en" smooth (world new_window)) = Ok (Some "tts_c.wav") /\
  ensure_pygame (world g1) = (Ok tt, snd (ensure_pygame (world g1))) /\
  play_btn (snd (_start_playback_ui g1)) = normal /\
  is_playing (self (world (snd (_start_playback_ui g1)))) = true.
Proof.
  cbn zeta.
  assert (Hr : fst (generate all_installed "Hello" "en" smooth (world new_window))
               = Ok (Some "tts_c.wav")) by (vm_compute; reflexivity).
  destruct (start_playback_after_generate all_installed "Hello" "en" smooth new_window _ Hr)
    as (_ & Hok & _).
  match goal with
  | |- _ /\ ?E /\ _ => assert (He : E) by (vm_compute; reflexivity)
  end.
  destruct (Hok _ He) as (Hb & _ & _ & _ & _ & _ & Hpl & _).
  auto.
Defined.

Lemma on_replay_reports_failure_witness :
  audio_file (self (world new_window)) = None /\
  dialogs (snd (on_replay new_window))
  = [showerror "Replay Error" "load() argument must be a path, not None"] /\
  play_btn (snd (on_replay new_window)) = disabled.
Proof.
  destruct (on_replay_reports_failure new_window) as (_ & _ & _ & Hfail).
  assert (He : fst (replay (world new_window))
               = Raise (LibraryError "load() argument must be a path, not None"))
    by (vm_compute; reflexivity).
  destruct (Hfail _ He) as (Hb & _ & _ & _ & _ & Hd).
  split; [reflexivity|]. split; [exact Hd | exact Hb].
Defined.

Lemma on_close_cleans_before_quitting_witness :
  removable all_installed (world playing_window) "tts_c.wav" = false /\
  quiet (world (snd (on_close all_installed playing_window))) = true /\
  tracked_paths (self (world (snd (on_close all_installed playing_window)))) = [] /\
  fs (world (snd (on_close all_installed playing_window))) !! "tts_c.wav" = Some Wav /\
  "tts_c.wav" ∈ tracked_paths (self (world playing_window)) /\
  removable all_installed_posix (world playing_window) "tts_c.wav" = true /\
  fs (world (snd (on_close all_installed_posix playing_window))) !! "tts_c.wav" = None.
Proof.
  assert (Hr : removable all_installed (world playing_window) "tts_c.wav" = false)
    by (vm_compute; reflexivity).
  assert (Hin : "tts_c.wav" ∈ tracked_paths (self (world playing_window)))
    by (vm_compute; constructor).
  assert (Hr' : removable all_installed_posix (world playing_window) "tts_c.wav" = true)
    by (vm_compute; reflexivity).
  destruct (on_close_cleans_before_quitting all_installed playing_window)
    as (_ & _ & Hs & Hq & _ & Hkeep).
  destruct (on_close_cleans_before_quitting all_installed_posix playing_window)
    as (_ & _ & _ & _ & Hgone & _).
  split; [exact Hr|]. split; [exact Hq|]. split; [rewrite Hs; reflexivity|].
  split; [rewrite (Hkeep _ Hr); vm_compute; reflexivity|].
  split; [exact Hin|]. split; [exact Hr'|]. exact (Hgone _ Hin Hr').
Defined.

Lemma substring_length m s :
  m <= String.length s -> String.length (String.substring 0 m s) = m.
Proof.
  revert s. induction m as [|m IH]; intros s Hm.
  - destruct s; reflexivity.
  - destruct s as [|c s]; cbn in Hm; [lia|].
    cbn. rewrite IH by lia. reflexivity.
Qed.

(** X17.  The label of a quick-sample button has at most 35 characters: a
    sample shorter than 35 is shown whole, a longer one as its first 32
    characters followed by three dots.  (Lengths are counted on ASCII text,
    as the samples are.) *)
Theorem sample_label_is_short s :
  String.length (sample_label s) <= 35 /\
  (String.length s < 35 -> sample_label s = s) /\
  (35 <= String.length s ->
     String.length (sample_label s) = 35 /\
     sample_label s = String.substring 0 32 s +:+ "..." /\
     String.prefix (String.substring 0 32 s) s = true).
Proof.
  unfold sample_label.
  destruct (Nat.ltb_spec (String.length s) 35) as [Hlt|Hge].
  - split; [lia|]. split; [reflexivity | lia].
  - assert (Hlen : String.length (String.substring 0 32 s) = 32)
      by (apply substring_length; lia).
    rewrite length_append, Hlen. cbn [String.length].
    split; [lia|]. split; [lia|]. intros _.
    split; [reflexivity|]. split; [reflexivity|].
    apply String.prefix_correct. rewrite Hlen. reflexivity.
Qed.

Lemma sample_label_is_short_witness :
  35 <= String.length "Describe a daily routine for a student preparing for exams." /\
  sample_label "Describe a daily routine for a student preparing for exams."
  = "Describe a daily routine for a s..." /\
  String.length "Talk about a memorable trip you took." >= 35 /\
  map sample_label sample_contexts
  = [ "Introduce yourself and talk abou...";
      "Describe your favorite book and ...";
      "Explain how to prepare your favo...";
      "Talk about a memorable trip you ...";
      "Describe a daily routine for a s..." ].
Proof.
  assert (H : 35 <= String.length "Describe a daily routine for a student preparing for exams.")
    by (vm_compute; lia).
  destruct (sample_label_is_short "Describe a daily routine for a student preparing for exams.")
    as (_ & _ & Hlong).
  destruct (Hlong H) as (_ & Heq & _).
  split; [exact H|]. split; [rewrite Heq; vm_compute; reflexivity|].
  split; [vm_compute; lia | vm_compute; reflexivity].
Defined.

(** ** The word lookup *)

Lemma append_assoc (a b c : string) : (a +:+ b) +:+ c = a +:+ (b +:+ c).
Proof.
  induction a as [|x a IH]; [reflexivity|].
  change (String x ((a +:+ b) +:+ c) = String x (a +:+ (b +:+ c))). f_equal. exact IH.
Qed.

(** [summarize] only reads. *)
Lemma py_get_pure {S} v key d (a : S) : snd (py_get v key d a) = a.
Proof. destruct v; reflexivity. Qed.

Lemma py_first_pure {S} v (a : S) : snd (py_first v a) = a.
Proof. destruct v as [| | |[|c s]|[|x l]|]; reflexivity. Qed.

Ltac pure_step :=
  repeat match goal with
  | |- context [py_get ?v ?k ?d ?a] =>
      let r := fresh "r" in let a' := fresh "a" in let H := fresh "H" in
      pose proof (py_get_pure v k d a) as H;
      destruct (py_get v k d a) as [[r|?] a']; cbn in H; subst a'; cbn
  | |- context [py_first ?v ?a] =>
      let r := fresh "r" in let a' := fresh "a" in let H := fresh "H" in
      pose proof (py_first_pure v a) as H;
      destruct (py_first v a) as [[r|?] a']; cbn in H; subst a'; cbn
  | |- context [if py_truth ?v then _ else _] => destruct (py_truth v); cbn
  end.

Lemma summarize_pure py_repr word data a : snd (summarize py_repr word data a) = a.
Proof.
  unfold summarize. destruct data as [| | | |[|entry rest]|]; try reflexivity.
  unfold bind, ret. pure_step; reflexivity.
Qed.

Lemma localize_total sv text a :
  exists shown, localize sv text a = (Ok shown, a).
Proof.
  unfold localize, bind, get, try_except, ret.
  destruct (negb _); [|eauto].
  destruct (translate sv _ text); eauto.
Qed.

(** X18.  [_fetch_meaning_thread] never raises and never changes the
    selected language.  Either it prints nothing, or it prints [Meaning
    lookup error: ...] and the meaning box shows the search line followed by
    [Error: ...] with the same message.  The second happens when the request
    fails and when the answer has status 200 and is not JSON. *)
Theorem lookup_shows_errors py_repr sv word app :
  let app' := snd (_fetch_meaning_thread py_repr sv word app) in
  fst (_fetch_meaning_thread py_repr sv word app) = Ok tt /\
  lang_var app' = lang_var app /\
  (console app' = console app \/
   exists msg,
     console app' = ("Meaning lookup error: " +:+ msg) :: console app /\
     meaning_box app' = searching word +:+ "Error: " +:+ msg) /\
  (forall msg, http sv = connection_fails msg ->
     console app' = ("Meaning lookup error: " +:+ msg) :: console app /\
     meaning_box app' = searching word +:+ "Error: " +:+ msg) /\
  (http sv = responds 200 None ->
     exists msg,
       console app' = ("Meaning lookup error: " +:+ msg) :: console app /\
       meaning_box app' = searching word +:+ "Error: " +:+ msg).
Proof.
  cbn zeta.
  unfold _fetch_meaning_thread, requests_get, resp_json, try_except, bind, box_clear,
    box_insert_first, box_insert_end, console_print, modify, ret, raise.
  fold (searching word). rewrite append_empty_r.
  destruct (http sv) as [msg|code body] eqn:Hhttp; cbn -[summarize localize searching String.append].
  { repeat split; eauto; try discriminate.
    all: match goal with
         | H : connection_fails _ = connection_fails _ |- _ =>
             inversion H; subst; reflexivity
         end. }
  destruct (negb (code =? 200)%Z) eqn:Hcode; cbn -[summarize localize searching String.append].
  { repeat split; auto; try discriminate.
    intros Heq. inversion Heq; subst. discriminate Hcode. }
  destruct body as [data|]; cbn -[summarize localize searching String.append].
  2:{ repeat split; eauto; discriminate. }
  match goal with
  | |- context [summarize py_repr word data ?a] =>
      pose proof (summarize_pure py_repr word data a) as Hpure;
      destruct (summarize py_repr word data a) as [[short|e] a1]
  end; cbn [snd] in Hpure; subst a1; cbn -[summarize localize searching String.append].
  2:{ repeat split; eauto; discriminate. }
  match goal with
  | |- context [localize sv short ?a] =>
      destruct (localize_total sv short a) as [shown ->]
  end; cbn -[summarize localize searching String.append].
  repeat split; auto; discriminate.
Qed.

Lemma lookup_shows_errors_witness :
  let sv := mkServices (connection_fails "timed out") (fun _ _ => Ok "") in
  http sv = connection_fails "timed out" /\
  _fetch_meaning_thread (fun _ => "") sv "cat" (mkApp "old" "English (en)" [])
  = (Ok tt, mkApp (searching "cat" +:+ "Error: timed out") "English (en)"
              ["Meaning lookup error: timed out"]).
Proof.
  cbn zeta.
  set (sv := mkServices (connection_fails "timed out") (fun _ _ => Ok "")).
  destruct (lookup_shows_errors (fun _ => "") sv "cat" (mkApp "old" "English (en)" []))
    as (Hok & Hl & _ & Hconn & _).
  destruct (Hconn "timed out" eq_refl) as (Hc & Hb).
  split; [reflexivity|].
  destruct (_fetch_meaning_thread (fun _ => "") sv "cat" (mkApp "old" "English (en)" []))
    as [r [b l c]]. cbn in *. subst. reflexivity.
Defined.

(** X19.  The translation step of the lookup changes nothing in the
    window and always yields a text: the summary itself when the target is
    English or the selected language is not in the table; the summary under
    [--- Original (English) ---] followed by the translation under
    [--- Translated ---] when the translator answers; the summary followed by
    [(Translation failed: ...)] when it raises. *)
Theorem localize_cases sv text app :
  snd (localize sv text app) = app /\
  (dict_get languages (lang_var app) "en" = "en" ->
     fst (localize sv text app) = Ok text) /\
  (forall shown, dict_get languages (lang_var app) "en" <> "en" ->
     translate sv (dict_get languages (lang_var app) "en") text = Ok shown ->
     fst (localize sv text app)
     = Ok ("--- Original (English) ---" +:+ nl +:+ text +:+ nl +:+ nl +:+
           "--- Translated ---" +:+ nl +:+ shown)) /\
  (forall e, dict_get languages (lang_var app) "en" <> "en" ->
     translate sv (dict_get languages (lang_var app) "en") text = Raise e ->
     fst (localize sv text app)
     = Ok (text +:+ nl +:+ nl +:+ "(Translation failed: " +:+ str e +:+ ")")) /\
  ((forall code, (lang_var app, code) ∉ languages) ->
     fst (localize sv text app) = Ok text).
Proof.
  assert (Hdef : (forall code, (lang_var app, code) ∉ languages) ->
                 dict_get languages (lang_var app) "en" = "en").
  { generalize languages as table. intros table Hno.
    induction table as [|[k v] table IH]; [reflexivity|].
    cbn. destruct (String.eqb_spec k (lang_var app)) as [->|Hne].
    - exfalso. apply (Hno v). by left.
    - apply IH. intros code Hin. apply (Hno code). by right. }
  unfold localize, bind, get, try_except, ret.
  destruct (String.eqb_spec (dict_get languages (lang_var app) "en") "en") as [Hen|Hne].
  - cbn [negb fst snd]. repeat split; auto; intros; congruence.
  - cbn [negb fst snd].
    destruct (translate sv _ text) as [shown|e] eqn:Htr; cbn [negb fst snd].
    + repeat split; intros; try congruence. exfalso. auto.
    + repeat split; intros; try congruence. exfalso. auto.
Qed.

Lemma localize_cases_witness :
  let sv := mkServices (responds 200 None) (fun code text => Ok (code +:+ ":" +:+ text)) in
  dict_get languages "Hindi (hi)" "en" <> "en" /\
  translate sv (dict_get languages "Hindi (hi)" "en") "cat" = Ok "hi:cat" /\
  fst (localize sv "cat" (mkApp "" "Hindi (hi)" []))
  = Ok ("--- Original (English) ---" +:+ nl +:+ "cat" +:+ nl +:+ nl +:+
        "--- Translated ---" +:+ nl +:+ "hi:cat") /\
  dict_get languages "Klingon (tlh)" "en" = "en" /\
  fst (localize sv "cat" (mkApp "" "Klingon (tlh)" [])) = Ok "cat".
Proof.
  cbn zeta.
  set (sv := mkServices (responds 200 None) (fun code text => Ok (code +:+ ":" +:+ text))).
  assert (H1 : dict_get languages "Hindi (hi)" "en" <> "en") by (vm_compute; discriminate).
  assert (H2 : translate sv (dict_get languages "Hindi (hi)" "en") "cat" = Ok "hi:cat")
    by (vm_compute; reflexivity).
  assert (H3 : dict_get languages "Klingon (tlh)" "en" = "en") by (vm_compute; reflexivity).
  destruct (localize_cases sv "cat" (mkApp "" "Hindi (hi)" [])) as (_ & _ & Htr & _).
  destruct (localize_cases sv "cat" (mkApp "" "Klingon (tlh)" [])) as (_ & Hen & _).
  split; [exact H1|]. split; [exact H2|]. split; [exact (Htr _ H1 H2)|].
  split; [exact H3 | exact (Hen H3)].
Defined.

(** X20.  When the dictionary answers with status 200 and something that
    is not a non-empty list, and the target is English, the lookup shows [No
    definition found for '<word>'.], prints nothing and does not raise. *)
Theorem lookup_without_entries py_repr sv word app data :
  http sv = responds 200 (Some data) ->
  has_no_entry data = true ->
  dict_get languages (lang_var app) "en" = "en" ->
  _fetch_meaning_thread py_repr sv word app
  = (Ok tt, mkApp (no_definition word) (lang_var app) (console app)).
Proof.
  intros Hhttp Hdata Hen.
  unfold _fetch_meaning_thread, requests_get, resp_json, try_except, bind, box_clear,
    box_insert_first, box_insert_end, console_print, modify, ret, raise.
  rewrite Hhttp. cbn -[summarize localize String.append].
  assert (Hsum : forall a, summarize py_repr word data a = (Ok (no_definition word), a)).
  { intros a. unfold summarize. destruct data as [| | | |[|? ?]|]; try reflexivity.
    discriminate Hdata. }
  rewrite Hsum. cbn -[localize String.append].
  unfold localize, bind, get, ret. cbn [fst snd lang_var]. rewrite Hen.
  cbn -[String.append]. rewrite append_empty_r. reflexivity.
Qed.

Lemma lookup_without_entries_witness :
  let sv := mkServices (responds 200 (Some (JList []))) (fun _ _ => Ok "") in
  http sv = responds 200 (Some (JList [])) /\
  has_no_entry (JList []) = true /\
  dict_get languages "English (en)" "en" = "en" /\
  meaning_box (snd (_fetch_meaning_thread (fun _ => "") sv "zzyzx"
                      (mkApp "old" "English (en)" [])))
  = no_definition "zzyzx".
Proof.
  cbn zeta.
  set (sv := mkServices (responds 200 (Some (JList []))) (fun _ _ => Ok "")).
  assert (Hen : dict_get languages "English (en)" "en" = "en") by reflexivity.
  rewrite (lookup_without_entries (fun _ => "") sv "zzyzx" (mkApp "old" "English (en)" [])
             (JList []) eq_refl eq_refl Hen).
  repeat split.
Defined.

(** X21.  For an entry with a word, a first phonetic text, and a first
    meaning with a first definition that has an example, the summary is the
    five lines Word, Pronunciation, Part of speech, Definition and Example;
    further phonetics and meanings are not shown. *)
Theorem summarize_full_entry py_repr word title sound part meaning usage others more app :
  sound <> "" -> usage <> "" ->
  summarize py_repr word
    (JList (JObj [ ("word", JStr title);
                   ("phonetics", JList (JObj [("text", JStr sound)] :: others));
                   ("meanings",
                    JList (JObj [ ("partOfSpeech", JStr part);
                                  ("definitions",
                                   JList [JObj [ ("definition", JStr meaning);
                                                 ("example", JStr usage) ]]) ] :: more)) ]
            :: [])) app
  = (Ok ("Word: " +:+ title +:+ nl +:+
         "Pronunciation: " +:+ sound +:+ nl +:+
         "Part of speech: " +:+ part +:+ nl +:+
         "Definition: " +:+ meaning +:+ nl +:+
         "Example: " +:+ usage +:+ nl), app).
Proof.
  intros Hs Hu. apply String.eqb_neq in Hs. apply String.eqb_neq in Hu.
  unfold summarize, bind, ret, py_get, py_first, py_truth, fmt.
  cbn -[String.append]. rewrite Hs, Hu. cbn -[String.append].
  rewrite !append_assoc. reflexivity.
Qed.

(** X22.  The summary of entries that lack parts: without meanings it is
    the word line and [No meanings found.]; without a [word] key the searched
    word stands in; a meaning without definitions gives the word line only;
    a first entry that is not a dict makes the summary raise. *)
Theorem summarize_sparse_entries py_repr word title part rest app :
  (* no meanings at all *)
  summarize py_repr word (JList (JObj [("word", JStr title)] :: rest)) app
  = (Ok ("Word: " +:+ title +:+ nl +:+ "No meanings found." +:+ nl), app) /\
  (* no word key: the searched word stands in *)
  summarize py_repr word (JList (JObj [] :: rest)) app
  = (Ok ("Word: " +:+ word +:+ nl +:+ "No meanings found." +:+ nl), app) /\
  (* a meaning without definitions: only the word line *)
  summarize py_repr word
    (JList (JObj [ ("word", JStr title);
                   ("meanings", JList [JObj [ ("partOfSpeech", JStr part);
                                              ("definitions", JList []) ]]) ] :: rest)) app
  = (Ok ("Word: " +:+ title +:+ nl), app) /\
  (* an entry that is not a dict *)
  (forall text, exists e,
     summarize py_repr word (JList (JStr text :: rest)) app = (Raise e, app)).
Proof.
  unfold summarize, bind, ret, raise, py_get, py_first, py_truth, fmt.
  cbn -[String.append]. rewrite !append_assoc. repeat split. eauto.
Qed.

Lemma summarize_full_entry_witness :
  "/kat/" <> "" /\ "The cat sat." <> "" /\
  fst (summarize (fun _ => "") "cat"
    (JList [JObj [ ("word", JStr "cat");
                   ("phonetics", JList [JObj [("text", JStr "/kat/")]]);
                   ("meanings",
                    JList [JObj [ ("partOfSpeech", JStr "noun");
                                  ("definitions",
                                   JList [JObj [ ("definition", JStr "A small animal.");
                                                 ("example", JStr "The cat sat.") ]]) ]]) ]])
    (mkApp "" "English (en)" []))
  = Ok ("Word: cat" +:+ nl +:+ "Pronunciation: /kat/" +:+ nl +:+
        "Part of speech: noun" +:+ nl +:+ "Definition: A small animal." +:+ nl +:+
        "Example: The cat sat." +:+ nl).
Proof.
  assert (H1 : "/kat/" <> "") by discriminate.
  assert (H2 : "The cat sat." <> "") by discriminate.
  split; [exact H1|]. split; [exact H2|].
  rewrite (summarize_full_entry (fun _ => "") "cat" "cat" "/kat/" "noun" "A small animal."
             "The cat sat." [] [] (mkApp "" "English (en)" []) H1 H2).
  vm_compute. reflexivity.
Defined.

(** ** The notes *)

(** Reading back what was written gives the text again, whichever of the
    two line separators the platform uses, when the text holds no carriage
    return. *)
Lemma newlines_round_trip linesep s :
  linesep = nl \/ linesep = String CR nl ->
  no_cr s = true ->
  universal_newlines (write_newlines linesep s) = s.
Proof.
  intros Hsep. induction s as [|c rest IH]; intros Hcr; [reflexivity|].
  cbn [no_cr] in Hcr. apply andb_true_iff in Hcr as [Hc Hrest].
  apply negb_true_iff in Hc. specialize (IH Hrest).
  cbn [write_newlines]. destruct (Ascii.eqb_spec c LF) as [->|Hlf].
  - destruct Hsep as [-> | ->].
    + change (nl +:+ write_newlines nl rest) with (String LF (write_newlines nl rest)).
      cbn [universal_newlines]. change (Ascii.eqb LF CR) with false. cbv iota.
      now rewrite IH.
    + change (String CR nl +:+ write_newlines (String CR nl) rest)
        with (String CR (String LF (write_newlines (String CR nl) rest))).
      cbn [universal_newlines]. change (Ascii.eqb CR CR) with true.
      change (Ascii.eqb LF LF) with true. cbv iota. now rewrite IH.
  - cbn [universal_newlines]. rewrite Hc. now rewrite IH.
Qed.

Section NotesFacts.
Variable strip : string -> string.
Variable repr_str : string -> string.

(** X23.  Saving the notes and loading the saved file gives the stripped
    notes back, when they hold no carriage return, whether the platform
    writes lines with a line feed or with carriage return and line feed.
    Saving does not change the notes area, loading does not change the file,
    and the two dialogs [Saved] and [Loaded] name the path. *)
Theorem notes_round_trip linesep g path :
  strip (notes_area g +:+ nl) <> "" -> path <> "" ->
  linesep = nl \/ linesep = String CR nl ->
  no_cr (strip (notes_area g +:+ nl)) = true ->
  let text := strip (notes_area g +:+ nl) in
  let g1 := snd (save_notes strip linesep path w_done g) in
  let g2 := snd (load_notes repr_str path Succeeds g1) in
  fst (save_notes strip linesep path w_done g) = Ok tt /\
  fst (load_notes repr_str path Succeeds g1) = Ok tt /\
  disk g1 !! path = Some (write_newlines linesep text) /\
  notes_area g1 = notes_area g /\
  notes_area g2 = text /\
  disk g2 = disk g1 /\
  dialogs g2 = showinfo "Loaded" ("Notes loaded from:" +:+ nl +:+ path)
               :: showinfo "Saved" ("Notes successfully saved to:" +:+ nl +:+ path)
               :: dialogs g.
Proof.
  intros Ht Hp Hsep Hcr. apply String.eqb_neq in Ht. apply String.eqb_neq in Hp. cbn zeta.
  pose proof (newlines_round_trip linesep _ Hsep Hcr) as Hrt.
  destruct g as [w pb ab rb pt st na tl dk dl ds].
  unfold save_notes, load_notes, notes_text, file_write, file_read, messagebox,
    set_notes_area, set_disk, try_except, bind, get, modify, pass, ret.
  cbn [notes_area] in *. rewrite Ht, Hp. cbn -[String.append write_newlines universal_newlines].
  rewrite ?lookup_insert_eq. cbn -[String.append write_newlines universal_newlines].
  rewrite ?lookup_insert_eq, ?Hrt. repeat split.
Qed.

(** X24.  [save_notes] and [load_notes] never raise.  Saving never changes
    the notes area nor any file but the chosen one, and loading never changes
    a file.  With nothing to save the [No Notes] dialog is shown; a cancelled
    dialog changes nothing.  When the file cannot be opened for writing, no
    file changes and [Save Error] shows the message; when writing fails after
    that, the file holds what reached it.  When reading fails, or the file is
    not there, the notes area is kept and [Load Error] shows the message. *)
Theorem notes_are_kept_on_failure linesep g path wio rio :
  let text := strip (notes_area g +:+ nl) in
  let save := save_notes strip linesep path wio g in
  let load := load_notes repr_str path rio g in
  fst save = Ok tt /\ fst load = Ok tt /\
  notes_area (snd save) = notes_area g /\
  disk (snd load) = disk g /\
  (forall q, q <> path -> disk (snd save) !! q = disk g !! q) /\
  (text = "" ->
     disk (snd save) = disk g /\
     dialogs (snd save) = showinfo "No Notes" "There is nothing to save." :: dialogs g) /\
  (path = "" -> text <> "" -> snd save = g) /\
  (path = "" -> snd load = g) /\
  (forall msg, wio = w_open_fails msg -> path <> "" -> text <> "" ->
     disk (snd save) = disk g /\
     dialogs (snd save) = showerror "Save Error" msg :: dialogs g) /\
  (forall msg reached, wio = w_write_fails msg reached -> path <> "" -> text <> "" ->
     disk (snd save) !! path = Some reached /\
     dialogs (snd save) = showerror "Save Error" msg :: dialogs g) /\
  (forall msg, rio = Fails msg -> path <> "" ->
     notes_area (snd load) = notes_area g /\
     dialogs (snd load) = showerror "Load Error" msg :: dialogs g) /\
  (rio = Succeeds -> path <> "" -> disk g !! path = None ->
     notes_area (snd load) = notes_area g /\
     dialogs (snd load)
     = showerror "Load Error" ("[Errno 2] No such file or directory: " +:+ repr_str path)
       :: dialogs g).
Proof.
  cbn zeta.
  destruct g as [w pb ab rb pt st na tl dk dl ds].
  unfold save_notes, load_notes, notes_text, file_write, file_read, messagebox,
    set_notes_area, set_disk, try_except, bind, get, modify, pass, ret, raise.
  cbn [notes_area disk dialogs] in *.
  destruct (String.eqb_spec (strip (na +:+ nl)) "") as [Ht|Ht];
    destruct (String.eqb_spec path "") as [Hp|Hp];
    destruct wio as [|wmsg|wmsg reached]; destruct rio as [|rmsg];
    destruct (dk !! path) eqn:Hd;
    cbn -[String.append write_newlines universal_newlines];
    rewrite ?Hd; cbn -[String.append write_newlines universal_newlines];
    repeat split; intros; try congruence; try reflexivity;
    try (rewrite lookup_insert_ne by congruence; reflexivity);
    try (rewrite lookup_insert_eq; congruence).
Qed.

(** X25.  [translate_notes] never raises.  With nothing to translate it
    shows [No Notes] and keeps the notes; when the translator answers, the
    notes area holds the translation and no dialog is shown; when it raises,
    the notes are kept and [Translation Error] shows the message. *)
Theorem translate_notes_replaces_or_keeps sv g :
  let g' := snd (translate_notes strip sv g) in
  let text := strip (notes_area g +:+ nl) in
  let code := dict_get languages (target_language g) "en" in
  fst (translate_notes strip sv g) = Ok tt /\
  (text = "" ->
     notes_area g' = notes_area g /\
     dialogs g' = showinfo "No Notes" "There is nothing to translate." :: dialogs g) /\
  (forall shown, text <> "" -> translate sv code text = Ok shown ->
     notes_area g' = shown /\ dialogs g' = dialogs g) /\
  (forall e, text <> "" -> translate sv code text = Raise e ->
     notes_area g' = notes_area g /\
     dialogs g' = showerror "Translation Error" (str e) :: dialogs g).
Proof.
  cbn zeta.
  destruct g as [w pb ab rb pt st na tl dk dl ds].
  unfold translate_notes, notes_text, messagebox, set_notes_area, try_except, bind, get,
    modify, pass, ret, raise.
  cbn [notes_area target_language dialogs] in *.
  destruct (String.eqb_spec (strip (na +:+ nl)) "") as [Ht|Ht].
  - cbn [negb fst snd notes_area dialogs]. repeat split; intros; try congruence.
  - cbn -[String.append languages dict_get nl].
    destruct (translate sv (dict_get languages tl "en") (strip (na +:+ nl))) as [shown|e];
      cbn -[String.append languages dict_get nl]; repeat split; intros; congruence.
Qed.

End NotesFacts.

Lemma notes_round_trip_witness :
  ascii_strip (notes_area notes_window +:+ nl) <> "" /\ "notes.txt" <> "" /\
  no_cr (ascii_strip (notes_area notes_window +:+ nl)) = true /\
  ascii_strip (notes_area notes_window +:+ nl) = "to be" +:+ nl +:+ "or not" /\
  notes_area (snd (load_notes quoted "notes.txt" Succeeds
                     (snd (save_notes ascii_strip (String CR nl) "notes.txt" w_done
                             notes_window))))
  = "to be" +:+ nl +:+ "or not".
Proof.
  assert (H1 : ascii_strip (notes_area notes_window +:+ nl) <> "")
    by (vm_compute; discriminate).
  assert (H2 : "notes.txt" <> "") by discriminate.
  assert (H3 : no_cr (ascii_strip (notes_area notes_window +:+ nl)) = true)
    by (vm_compute; reflexivity).
  assert (H4 : ascii_strip (notes_area notes_window +:+ nl) = "to be" +:+ nl +:+ "or not")
    by (vm_compute; reflexivity).
  destruct (notes_round_trip ascii_strip quoted (String CR nl) notes_window "notes.txt"
              H1 H2 (or_intror eq_refl) H3) as (_ & _ & _ & _ & Hn & _).
  split; [exact H1|]. split; [exact H2|]. split; [exact H3|]. split; [exact H4|].
  rewrite Hn. exact H4.
Defined.

Lemma notes_are_kept_on_failure_witness :
  "notes.txt" <> "" /\ disk notes_window !! "notes.txt" = None /\
  ascii_strip (notes_area notes_window +:+ nl) <> "" /\
  notes_area (snd (load_notes quoted "notes.txt" Succeeds notes_window))
  = notes_area notes_window /\
  dialogs (snd (load_notes quoted "notes.txt" Succeeds notes_window))
  = [showerror "Load Error" "[Errno 2] No such file or directory: 'notes.txt'"] /\
  dialogs (snd (save_notes ascii_strip nl "notes.txt" (w_open_fails "disk full")
                  notes_window))
  = [showerror "Save Error" "disk full"].
Proof.
  assert (H1 : ascii_strip (notes_area notes_window +:+ nl) <> "")
    by (vm_compute; discriminate).
  assert (H2 : "notes.txt" <> "") by discriminate.
  assert (H3 : disk notes_window !! "notes.txt" = None) by reflexivity.
  destruct (notes_are_kept_on_failure ascii_strip quoted nl notes_window "notes.txt"
              (w_open_fails "disk full") Succeeds)
    as (_ & _ & _ & _ & _ & _ & _ & _ & Hsave & _ & _ & Hload).
  destruct (Hload eq_refl H2 H3) as (Hn & Hl).
  destruct (Hsave "disk full" eq_refl H2 H1) as (_ & Hd).
  split; [exact H2|]. split; [exact H3|]. split; [exact H1|].
  split; [exact Hn|]. split; [exact Hl | exact Hd].
Defined.

Lemma translate_notes_replaces_or_keeps_witness :
  ascii_strip (notes_area notes_window +:+ nl) <> "" /\
  translate tagging (dict_get languages (target_language notes_window) "en")
            (ascii_strip (notes_area notes_window +:+ nl))
  = Ok ("es:to be" +:+ nl +:+ "or not") /\
  notes_area (snd (translate_notes ascii_strip tagging notes_window))
  = "es:to be" +:+ nl +:+ "or not".
Proof.
  assert (H1 : ascii_strip (notes_area notes_window +:+ nl) <> "")
    by (vm_compute; discriminate).
  assert (H2 : translate tagging (dict_get languages (target_language notes_window) "en")
                 (ascii_strip (notes_area notes_window +:+ nl))
               = Ok ("es:to be" +:+ nl +:+ "or not")) by (vm_compute; reflexivity).
  destruct (translate_notes_replaces_or_keeps ascii_strip tagging notes_window)
    as (_ & _ & Hok & _).
  destruct (Hok _ H1 H2) as (Hn & _).
  split; [exact H1|]. split; [exact H2 | exact Hn].
Defined.
